(** * PyTTa [classes.py]: the dual-domain signal object

    A shallow embedding of [PyTTaObj] and [SignalObj] (src/pytta/classes.py)
    and of the NumPy operations their bodies call.

    Numbers.  Python [float] and NumPy [float64]/[complex128] values are
    idealised as real and complex numbers: rounding, overflow and the
    non-finite values of IEEE arithmetic are not modelled, except for the one
    non-finite value the setters compute themselves, [np.log2(0) = -inf],
    which is a constructor of its own.  Python [int] is [Z].  What follows
    from this is said where it matters: at [Cdiv], [dft], [np_arange],
    [pyval] and [py_truediv].

    Arrays.  An [ndarray] is a shape and a row-major data buffer, as in
    NumPy.  Every signal buffer holds complex elements; a real buffer is a
    buffer whose imaginary parts are zero ([RtoC]).

    Effects.  Property setters mutate [self] statement by statement and may
    raise in the middle; they are state transformers that return the state
    reached together with either a value or the exception raised. *)

From Stdlib Require Import String.
From Stdlib Require Import List ZArith Reals Lra Lia Bool PeanoNat.
Import ListNotations.

Set Implicit Arguments.

Local Open Scope string_scope.
Local Open Scope R_scope.

(** ** Exceptions *)

Inductive exn : Type :=
| AttributeError (msg : string)
| TypeError (msg : string)
| IndexError
| ValueError
| ZeroDivisionError
| UnboundLocalError.

Inductive res (A : Type) : Type :=
| Ok (a : A)
| Raise (e : exn).
Arguments Ok {A} a.
Arguments Raise {A} e.

Definition rbind {A B} (r : res A) (k : A -> res B) : res B :=
  match r with Ok a => k a | Raise e => Raise e end.

Declare Scope res_scope.
Delimit Scope res_scope with res.
Notation "x <- r ;; k" := (rbind r (fun x => k))
  (at level 61, r at next level, right associativity) : res_scope.

(** ** Complex numbers *)

Definition C : Type := (R * R)%type.

Definition RtoC (x : R) : C := (x, 0).
Definition Re (z : C) : R := fst z.
Definition Im (z : C) : R := snd z.

Definition Cadd (a b : C) : C := (Re a + Re b, Im a + Im b).
Definition Csub (a b : C) : C := (Re a - Re b, Im a - Im b).
Definition Cmul (a b : C) : C :=
  (Re a * Re b - Im a * Im b, Re a * Im b + Im a * Re b).
(** Division of real numbers is total, so a zero divisor gives [(0, 0)]
    here; NumPy stores [inf] or [nan] there.  A statement about the values
    of a quotient assumes that no divisor is zero. *)
Definition Cdiv (a b : C) : C :=
  let d := Re b * Re b + Im b * Im b in
  ((Re a * Re b + Im a * Im b) / d, (Im a * Re b - Re a * Im b) / d).
Definition Cscale (r : R) (a : C) : C := (r * Re a, r * Im a).

(** [e^(i theta)] *)
Definition Cexp (theta : R) : C := (cos theta, sin theta).

Fixpoint Csum (l : list C) : C :=
  match l with
  | [] => RtoC 0
  | z :: l' => Cadd z (Csum l')
  end.

(** ** NumPy arrays *)

Record ndarray (A : Type) : Type := mk_ndarray {
  shape : list nat;
  data : list A
}.

Definition prod_shape (s : list nat) : nat := fold_right Nat.mul 1%nat s.

(** The buffer holds as many elements as the shape says. *)
Definition wf {A} (a : ndarray A) : Prop :=
  length (data a) = prod_shape (shape a).

(** [a.ndim] *)
Definition ndim {A} (a : ndarray A) : nat := length (shape a).

(** [len(a)]: the first axis; a 0-d array is unsized. *)
Definition np_len {A} (a : ndarray A) : res nat :=
  match shape a with
  | [] => Raise (TypeError "len() of unsized object")
  | n :: _ => Ok n
  end.

(** All multi-indices of a shape, in row-major order. *)
Fixpoint indices (s : list nat) : list (list nat) :=
  match s with
  | [] => [[]]
  | d :: s' => flat_map (fun i => map (cons i) (indices s')) (seq 0 d)
  end.

(** Position of a multi-index in the row-major buffer. *)
Definition offset (s idx : list nat) : nat :=
  fold_left (fun acc di => (acc * fst di + snd di)%nat) (combine s idx) 0%nat.

Definition item {A} (a : ndarray A) (idx : list nat) : list A :=
  match nth_error (data a) (offset (shape a) idx) with
  | Some x => [x]
  | None => []
  end.

(** [a.transpose()]: all axes reversed. *)
Definition transpose {A} (a : ndarray A) : ndarray A :=
  mk_ndarray (rev (shape a))
             (flat_map (fun idx => item a (rev idx)) (indices (rev (shape a)))).

(** Rows of length [n] of a buffer, [k] of them. *)
Fixpoint chunks {A} (k n : nat) (l : list A) : list (list A) :=
  match k with
  | O => []
  | S k' => firstn n l :: chunks k' n (skipn n l)
  end.

(** The discrete Fourier transform of one row and its inverse, as NumPy
    documents them; computed exactly here, where [np.fft] rounds (and
    overflows on samples near the largest float). *)
Definition twiddle (sign : R) (N k n : nat) : C :=
  Cexp (sign * 2 * PI * INR k * INR n / INR N).

Definition dft_coeff (sign : R) (x : list C) (k : nat) : C :=
  Csum (map (fun nx => Cmul (snd nx) (twiddle sign (length x) k (fst nx)))
            (combine (seq 0 (length x)) x)).

Definition dft (x : list C) : list C :=
  map (dft_coeff (-1) x) (seq 0 (length x)).

Definition idft (X : list C) : list C :=
  map (fun n => Cscale (/ INR (length X)) (dft_coeff 1 X n))
      (seq 0 (length X)).

(** [np.fft.fft(a)] and [np.fft.ifft(a)]: the transform along the last axis.
    A 0-d array has no last axis; a last axis of length 0 is refused
    ("Invalid number of FFT data points"). *)
Definition along_last_axis (f : list C -> list C) (a : ndarray C)
  : res (ndarray C) :=
  match rev (shape a) with
  | [] => Raise IndexError
  | O :: _ => Raise ValueError
  | n :: outer =>
      Ok (mk_ndarray (shape a)
            (flat_map f (chunks (prod_shape outer) n (data a))))
  end.

Definition np_fft : ndarray C -> res (ndarray C) := along_last_axis dft.
Definition np_ifft : ndarray C -> res (ndarray C) := along_last_axis idft.

(** [np.real(a)] *)
Definition np_real (a : ndarray C) : ndarray C :=
  mk_ndarray (shape a) (map (fun z => RtoC (Re z)) (data a)).

(** [np.linspace(start, stop, num)], end point included: [num] points, the
    last one overwritten with [stop]. *)
Definition np_linspace (start stop : R) (num : nat) : ndarray R :=
  let step := (stop - start) / INR (num - 1) in
  mk_ndarray [num]
    (match num with
     | O => []
     | S O => [start]
     | S m => map (fun k => start + INR k * step) (seq 0 m) ++ [stop]
     end).

(** [np.arange(start, stop, step)]: [ceil((stop - start) / step)] points.
    The number of points is computed over the reals here; NumPy computes the
    quotient in float64, where it can round up past an integer and give one
    more point (5 samples at 48000 Hz give 6 instants).  Nothing below
    depends on how many points [np_arange] returns. *)
Definition Rceil (x : R) : Z := (1 - up (- x))%Z.

Definition np_arange (start stop step : R) : ndarray R :=
  let num := Z.to_nat (Rceil ((stop - start) / step)) in
  mk_ndarray [num] (map (fun k => start + INR k * step) (seq 0 num)).

(** [np.log2(n)] for a Python int [n >= 0]. *)
Inductive npfloat : Type :=
| Finite (r : R)
| NegInf.

Definition np_log2 (n : nat) : npfloat :=
  match n with
  | O => NegInf
  | _ => Finite (ln (INR n) / ln 2)
  end.

(** ** Indexing and broadcasting *)

(** [a[:, ch]] *)
Definition getitem_col {A} (a : ndarray A) (ch : nat) : res (ndarray A) :=
  match shape a with
  | n :: c :: inner =>
      if (ch <? c)%nat then
        Ok (mk_ndarray (n :: inner)
              (flat_map (fun i => firstn (prod_shape inner)
                                    (skipn ((i * c + ch) * prod_shape inner)
                                           (data a)))
                        (seq 0 n)))
      else Raise IndexError
  | _ => Raise IndexError
  end.

(** NumPy's broadcasting of two shapes, aligned on the last axis. *)
Fixpoint broadcast_rev (r1 r2 : list nat) : option (list nat) :=
  match r1, r2 with
  | [], _ => Some r2
  | _, [] => Some r1
  | d1 :: t1, d2 :: t2 =>
      match broadcast_rev t1 t2 with
      | None => None
      | Some t =>
          if (d1 =? d2)%nat then Some (d1 :: t)
          else if (d1 =? 1)%nat then Some (d2 :: t)
          else if (d2 =? 1)%nat then Some (d1 :: t)
          else None
      end
  end.

Definition broadcast_shapes (s1 s2 : list nat) : option (list nat) :=
  option_map (@rev nat) (broadcast_rev (rev s1) (rev s2)).

(** The index into an operand of shape [s] that a result index reads. *)
Definition bidx (s idx : list nat) : list nat :=
  map (fun di => if (fst di =? 1)%nat then O else snd di)
      (combine s (skipn (length idx - length s) idx)).

Definition shape_eqb (s1 s2 : list nat) : bool :=
  if list_eq_dec Nat.eq_dec s1 s2 then true else false.

Definition broadcast_to {A} (v : ndarray A) (target : list nat)
  : res (ndarray A) :=
  match broadcast_shapes (shape v) target with
  | Some s =>
      if shape_eqb s target then
        Ok (mk_ndarray target
              (flat_map (fun idx => item v (bidx (shape v) idx))
                        (indices target)))
      else Raise ValueError
  | None => Raise ValueError
  end.

(** [a[:, j] = v], in place. *)
Definition setitem_col {A} (a : ndarray A) (j : nat) (v : ndarray A)
  : res (ndarray A) :=
  match shape a with
  | n :: c :: inner =>
      if (j <? c)%nat then
        match broadcast_to v (n :: inner) with
        | Ok v' =>
            Ok (mk_ndarray (shape a)
                  (flat_map (fun idx =>
                               match idx with
                               | i :: k :: rest =>
                                   if (k =? j)%nat then item v' (i :: rest)
                                   else item a idx
                               | _ => []
                               end)
                            (indices (shape a))))
        | Raise e => Raise e
        end
      else Raise IndexError
  | _ => Raise IndexError
  end.

(** [a / b], [a + b], [a - b] on arrays: element-wise with broadcasting. *)
Definition np_binop {A} (f : A -> A -> A) (a b : ndarray A)
  : res (ndarray A) :=
  match broadcast_shapes (shape a) (shape b) with
  | Some s =>
      Ok (mk_ndarray s
            (flat_map (fun idx =>
                         match item a (bidx (shape a) idx),
                               item b (bidx (shape b) idx) with
                         | [x], [y] => [f x y]
                         | _, _ => []
                         end)
                      (indices s)))
  | None => Raise ValueError
  end.

Definition np_divide := np_binop Cdiv.
Definition np_add := np_binop Cadd.
Definition np_subtract := np_binop Csub.

(** ** Python values *)

(** What a caller passes for the scalar arguments: [None], an int, a str.
    A float (a sampling rate of [44100.0]) or a NumPy scalar is not a value
    of this type: the properties below are about int sampling rates, and
    none says that a float rate makes a setter fail. *)
Inductive pyval : Type :=
| PNone
| PInt (z : Z)
| PStr (s : string).

(** A field the setters overwrite with a computed float. *)
Inductive field : Type :=
| Given (v : pyval)
| Float (x : npfloat).

Definition py_truthy (v : pyval) : bool :=
  match v with
  | PNone => false
  | PInt z => negb (z =? 0)%Z
  | PStr s => negb (String.eqb s "")
  end.

Definition py_eq_str (v : pyval) (s : string) : bool :=
  match v with
  | PStr s' => String.eqb s' s
  | _ => false
  end.

(** [a / b] on Python scalars (true division).  The quotient is the exact
    one: Python raises [OverflowError] for an int beyond the range of a
    float and rounds a tiny quotient to 0.0, neither of which happens
    here. *)
Definition py_truediv (a b : pyval) : res R :=
  match a, b with
  | PInt x, PInt y =>
      if (y =? 0)%Z then Raise ZeroDivisionError else Ok (IZR x / IZR y)
  | _, _ => Raise (TypeError "unsupported operand type(s) for /")
  end.

Fixpoint str_repeat (s : string) (n : nat) : string :=
  match n with
  | O => ""
  | S n' => s ++ str_repeat s n'
  end.

(** [n * b] for a Python int [n]: a product, or a repeated string. *)
Definition py_mul (n : Z) (b : pyval) : res pyval :=
  match b with
  | PInt z => Ok (PInt (n * z))
  | PStr s => Ok (PStr (str_repeat s (Z.to_nat n)))
  | PNone => Raise (TypeError "unsupported operand type(s) for *")
  end.

(** ** [PyTTaObj] and [SignalObj]: the attributes

    [_samplingRate] ... [_comment] are set by [PyTTaObj.__init__]; [_domain]
    and the four arrays by [SignalObj]; an array attribute that no statement
    has assigned yet is [None], and reading it raises [AttributeError]. *)

Record SignalObj : Type := mk_SignalObj {
  _samplingRate : pyval;
  _fftDegree : field;
  _timeLength : field;
  _numSamples : pyval;
  _freqMin : pyval;
  _freqMax : pyval;
  _comment : pyval;
  _domain : pyval;
  _timeVector : option (ndarray R);
  _freqVector : option (ndarray R);
  _timeSignal : option (ndarray C);
  _freqSignal : option (ndarray C)
}.

Definition with_fftDegree (v : field) (o : SignalObj) : SignalObj :=
  mk_SignalObj (_samplingRate o) v (_timeLength o) (_numSamples o)
    (_freqMin o) (_freqMax o) (_comment o) (_domain o)
    (_timeVector o) (_freqVector o) (_timeSignal o) (_freqSignal o).

Definition with_timeLength (v : field) (o : SignalObj) : SignalObj :=
  mk_SignalObj (_samplingRate o) (_fftDegree o) v (_numSamples o)
    (_freqMin o) (_freqMax o) (_comment o) (_domain o)
    (_timeVector o) (_freqVector o) (_timeSignal o) (_freqSignal o).

Definition with_numSamples (v : pyval) (o : SignalObj) : SignalObj :=
  mk_SignalObj (_samplingRate o) (_fftDegree o) (_timeLength o) v
    (_freqMin o) (_freqMax o) (_comment o) (_domain o)
    (_timeVector o) (_freqVector o) (_timeSignal o) (_freqSignal o).

Definition with_domain (v : pyval) (o : SignalObj) : SignalObj :=
  mk_SignalObj (_samplingRate o) (_fftDegree o) (_timeLength o)
    (_numSamples o) (_freqMin o) (_freqMax o) (_comment o) v
    (_timeVector o) (_freqVector o) (_timeSignal o) (_freqSignal o).

Definition with_timeVector (v : ndarray R) (o : SignalObj) : SignalObj :=
  mk_SignalObj (_samplingRate o) (_fftDegree o) (_timeLength o)
    (_numSamples o) (_freqMin o) (_freqMax o) (_comment o) (_domain o)
    (Some v) (_freqVector o) (_timeSignal o) (_freqSignal o).

Definition with_freqVector (v : ndarray R) (o : SignalObj) : SignalObj :=
  mk_SignalObj (_samplingRate o) (_fftDegree o) (_timeLength o)
    (_numSamples o) (_freqMin o) (_freqMax o) (_comment o) (_domain o)
    (_timeVector o) (Some v) (_timeSignal o) (_freqSignal o).

Definition with_timeSignal (v : ndarray C) (o : SignalObj) : SignalObj :=
  mk_SignalObj (_samplingRate o) (_fftDegree o) (_timeLength o)
    (_numSamples o) (_freqMin o) (_freqMax o) (_comment o) (_domain o)
    (_timeVector o) (_freqVector o) (Some v) (_freqSignal o).

Definition with_freqSignal (v : ndarray C) (o : SignalObj) : SignalObj :=
  mk_SignalObj (_samplingRate o) (_fftDegree o) (_timeLength o)
    (_numSamples o) (_freqMin o) (_freqMax o) (_comment o) (_domain o)
    (_timeVector o) (_freqVector o) (_timeSignal o) (Some v).

(** ** Methods that mutate [self]

    [M A] is a method body: from the state of [self] to the state it leaves
    and its outcome.  The state reached is kept when the body raises. *)

Definition M (A : Type) : Type := SignalObj -> SignalObj * res A.

Definition ret {A} (a : A) : M A := fun o => (o, Ok a).

Definition bind {A B} (m : M A) (k : A -> M B) : M B :=
  fun o =>
    match m o with
    | (o', Ok a) => k a o'
    | (o', Raise e) => (o', Raise e)
    end.

Definition lift {A} (r : res A) : M A := fun o => (o, r).
Definition assign (f : SignalObj -> SignalObj) : M unit :=
  fun o => (f o, Ok tt).
Definition read {A} (f : SignalObj -> A) : M A := fun o => (o, Ok (f o)).
Definition get {A} (g : SignalObj -> res A) : M A := fun o => (o, g o).

Declare Scope meth_scope.
Delimit Scope meth_scope with meth.
Notation "x <- m ;; k" := (bind m (fun x => k))
  (at level 61, m at next level, right associativity) : meth_scope.
Notation "m ;; k" := (bind m (fun _ => k))
  (at level 61, right associativity) : meth_scope.

(** Running a body on an object the caller holds: the mutated object, or the
    exception. *)
Definition exec {A} (m : M A) (o : SignalObj) : res SignalObj :=
  match m o with
  | (o', Ok _) => Ok o'
  | (_, Raise e) => Raise e
  end.

(** *** Property getters *)

Definition attr {A} (name : string) (v : option A) : res A :=
  match v with
  | Some a => Ok a
  | None => Raise (AttributeError name)
  end.

Definition timeSignal (o : SignalObj) : res (ndarray C) :=
  attr "_timeSignal" (_timeSignal o).
Definition freqSignal (o : SignalObj) : res (ndarray C) :=
  attr "_freqSignal" (_freqSignal o).
Definition timeVector (o : SignalObj) : res (ndarray R) :=
  attr "_timeVector" (_timeVector o).
Definition freqVector (o : SignalObj) : res (ndarray R) :=
  attr "_freqVector" (_freqVector o).
Definition domain (o : SignalObj) : pyval := _domain o.
Definition samplingRate (o : SignalObj) : pyval := _samplingRate o.

(** [self.domain = v]: the property has a getter only. *)
Definition domain_set (v : pyval) : M unit :=
  lift (Raise (AttributeError "can't set attribute")).

(** *** [timeSignal.setter] *)

Definition timeSignal_set (newSignal : ndarray C) : M unit :=
  (assign (with_timeSignal newSignal) ;;
   ts <- get timeSignal ;;
   n <- lift (np_len ts) ;;
   assign (with_numSamples (PInt (Z.of_nat n))) ;;
   assign (with_fftDegree (Float (np_log2 n))) ;;
   sr <- read samplingRate ;;
   tl <- lift (py_truediv (PInt (Z.of_nat n)) sr) ;;
   assign (with_timeLength (Float (Finite tl))) ;;
   dt <- lift (py_truediv (PInt 1) sr) ;;
   assign (with_timeVector (np_linspace 0 (tl - dt) n)) ;;
   p <- lift (py_mul (Z.of_nat n - 1) sr) ;;
   fmax <- lift (py_truediv p (PInt (Z.of_nat n))) ;;
   assign (with_freqVector (np_linspace 0 fmax n)) ;;
   F <- lift (np_fft (transpose ts)) ;;
   assign (with_freqSignal (transpose F)))%meth.

(** *** [freqSignal.setter] *)

Definition freqSignal_set (newSignal : ndarray C) : M unit :=
  (assign (with_freqSignal newSignal) ;;
   fs <- get freqSignal ;;
   t <- lift (np_ifft (transpose fs)) ;;
   assign (with_timeSignal (transpose (np_real t))) ;;
   ts <- get timeSignal ;;
   n <- lift (np_len ts) ;;
   assign (with_numSamples (PInt (Z.of_nat n))) ;;
   assign (with_fftDegree (Float (np_log2 n))) ;;
   sr <- read samplingRate ;;
   tl <- lift (py_truediv (PInt (Z.of_nat n)) sr) ;;
   assign (with_timeLength (Float (Finite tl))) ;;
   dt <- lift (py_truediv (PInt 1) sr) ;;
   assign (with_timeVector (np_arange 0 tl dt)) ;;
   p <- lift (py_mul (Z.of_nat n - 1) sr) ;;
   fmax <- lift (py_truediv p (PInt (Z.of_nat n))) ;;
   assign (with_freqVector (np_linspace 0 fmax n)))%meth.

(** *** [size_check] and [num_channels]

    [size_check(inputArray)] is the rank of [inputArray]; called without an
    argument, of [self.timeSignal[:]] (a 0-d array cannot be sliced).  With
    the NumPy of the code's time an array never compares equal to the default
    argument [[]]: the comparison gives [False] or an empty array, both
    falsy. *)

Definition size_check (self : SignalObj) (inputArray : option (ndarray C))
  : res nat :=
  match inputArray with
  | Some a => Ok (ndim a)
  | None =>
      ts <- timeSignal self ;;
      match shape ts with
      | [] => Raise IndexError
      | _ => Ok (ndim ts)
      end
  end%res.

(** [np.shape(self.timeSignal)[1]], and 1 when there is no second axis. *)
Definition num_channels (self : SignalObj) : res nat :=
  (ts <- timeSignal self ;;
   match shape ts with
   | _ :: c :: _ => Ok c
   | _ => Ok 1%nat
   end)%res.

(** ** Constructors *)

Definition PyTTaObj_params : list string :=
  ["samplingRate"; "fftDegree"; "timeLength"; "numSamples";
   "freqMin"; "freqMax"; "comment"].

Fixpoint index_of (name : string) (l : list string) : option nat :=
  match l with
  | [] => None
  | x :: l' =>
      if String.eqb x name then Some O else option_map S (index_of name l')
  end.

Fixpoint set_nth {A} (i : nat) (v : A) (l : list A) : list A :=
  match l, i with
  | [], _ => []
  | _ :: l', O => v :: l'
  | x :: l', S i' => x :: set_nth i' v l'
  end.

(** Python's binding of [*args] and [**kwargs] to the seven parameters. *)
Fixpoint bind_kwargs (kwargs : list (string * pyval))
         (slots : list (option pyval)) : res (list (option pyval)) :=
  match kwargs with
  | [] => Ok slots
  | (k, v) :: rest =>
      match index_of k PyTTaObj_params with
      | None => Raise (TypeError "unexpected keyword argument")
      | Some i =>
          match nth_error slots i with
          | Some None => bind_kwargs rest (set_nth i (Some v) slots)
          | _ => Raise (TypeError "multiple values for argument")
          end
      end
  end.

Definition bind_args (args : list pyval) (kwargs : list (string * pyval))
  : res (list (option pyval)) :=
  if (7 <? length args)%nat
  then Raise (TypeError "too many positional arguments")
  else bind_kwargs kwargs
         (map Some args ++ repeat None (7 - length args)).

Definition slot (slots : list (option pyval)) (i : nat) (dflt : pyval)
  : pyval :=
  match nth_error slots i with
  | Some (Some v) => v
  | _ => dflt
  end.

(** [PyTTaObj.__init__]; the attributes [SignalObj] adds are still unset
    ([_domain] is assigned by the next statement of [SignalObj.__init__]). *)
Definition PyTTaObj_init (args : list pyval) (kwargs : list (string * pyval))
  : res SignalObj :=
  (slots <- bind_args args kwargs ;;
   Ok (mk_SignalObj (slot slots 0 PNone)
         (Given (slot slots 1 PNone))
         (Given (slot slots 2 PNone))
         (slot slots 3 PNone)
         (slot slots 4 PNone)
         (slot slots 5 PNone)
         (slot slots 6 (PStr "No comments."))
         PNone None None None None))%res.

(** The message of the rank check; the source continues the literal on a
    second, indented line. *)
Definition rank_message : string :=
  "No 'pyttaObj' is able handle arrays with more "
  ++ "                        than 2 dimensions, '[:,:]', YET!.".

(** The instance as [__init__] receives it. *)
Definition unset : SignalObj :=
  mk_SignalObj PNone (Given PNone) (Given PNone) PNone PNone PNone PNone
               PNone None None None None.

(** [domain or args[1]] *)
Definition domain_or_args1 (domain : pyval) (args : list pyval) : res pyval :=
  if py_truthy domain then Ok domain
  else match nth_error args 1 with
       | Some v => Ok v
       | None => Raise IndexError
       end.

(** [SignalObj.__init__(self, signalArray, domain, *args, **kwargs)] *)
Definition SignalObj_init (signalArray : ndarray C) (domain : pyval)
           (args : list pyval) (kwargs : list (string * pyval))
  : res SignalObj :=
  (rank <- size_check unset (Some signalArray) ;;
   if (2 <? rank)%nat then Raise (AttributeError rank_message)
   else
     self <- PyTTaObj_init args kwargs ;;
     d <- domain_or_args1 domain args ;;
     let self := with_domain d self in
     if py_eq_str (_domain self) "freq" then
       exec (freqSignal_set signalArray) self
     else if py_eq_str (_domain self) "time" then
       exec (timeSignal_set signalArray) self
     else
       exec (timeSignal_set signalArray ;; domain_set (PStr "time"))%meth
            self)%res.

(** The default [signalArray]: [np.array([0])]. *)
Definition default_signalArray : ndarray C := mk_ndarray [1%nat] [RtoC 0].

(** ** Operators *)

(** The right operand of an operator: a [SignalObj] or a value of another
    type. *)
Inductive operand : Type :=
| OSignal (o : SignalObj)
| OOther (v : pyval).

Definition alike_message : string :=
  "A SignalObj can only operate with other alike".

(** [for x in range(...)] with the loop state threaded through. *)
Fixpoint for_range {S} (body : nat -> S -> res S) (l : list nat) (s : S)
  : res S :=
  match l with
  | [] => Ok s
  | x :: l' => (s' <- body x s ;; for_range body l' s')%res
  end.

(** [result = SignalObj(samplingRate=self.samplingRate)] *)
Definition new_result (self : SignalObj) : res SignalObj :=
  SignalObj_init default_signalArray (PStr "time") []
                 [("samplingRate", samplingRate self)].

(** The state of the nested loops: [result], [i] and [channelB] (unbound
    until the inner loop has run once). *)
Definition loop_state : Type := (SignalObj * nat * option nat)%type.

(** [for channelA ...: for channelB ...: result.<buf>[:, i + channelB] =
    self.<buf>[:, channelA] op other.<buf>[:, channelB]; i = channelB],
    with the inner range as the method computes it. *)
Definition outer_product_loop
           (buf : SignalObj -> res (ndarray C))
           (store : ndarray C -> SignalObj -> SignalObj)
           (op : ndarray C -> ndarray C -> res (ndarray C))
           (inner_range : res nat)
           (self other result : SignalObj) : res SignalObj :=
  (na <- num_channels self ;;
   st <- for_range
           (fun channelA (st : loop_state) =>
              nb <- inner_range ;;
              st' <- for_range
                       (fun channelB (st : loop_state) =>
                          let '(result, i, _) := st in
                          fa <- buf self ;;
                          a <- getitem_col fa channelA ;;
                          fb <- buf other ;;
                          b <- getitem_col fb channelB ;;
                          q <- op a b ;;
                          fr <- buf result ;;
                          fr' <- setitem_col fr (i + channelB) q ;;
                          Ok (store fr' result, i, Some channelB))
                       (seq 0 nb) st ;;
              let '(result, _, channelB) := st' in
              match channelB with
              | Some c => Ok (result, c, channelB)
              | None => Raise UnboundLocalError
              end)
           (seq 0 na) (result, O, None) ;;
   Ok (fst (fst st)))%res.

(** [__truediv__]: frequency domain division *)
Definition truediv (self : SignalObj) (other : operand) : res SignalObj :=
  match other with
  | OOther _ => Raise (TypeError alike_message)
  | OSignal other =>
      (result <- new_result self ;;
       let result := with_domain (PStr "freq") result in
       ra <- size_check self None ;;
       if (1 <? ra)%nat then
         rb <- size_check other None ;;
         if (1 <? rb)%nat then
           outer_product_loop freqSignal with_freqSignal np_divide
                              (num_channels other) self other result
         else
           na <- num_channels self ;;
           for_range (fun channel result =>
                        fa <- freqSignal self ;;
                        a <- getitem_col fa channel ;;
                        fb <- freqSignal other ;;
                        q <- np_divide a fb ;;
                        exec (freqSignal_set q) result)
                     (seq 0 na) result
       else
         rb <- size_check other None ;;
         if (1 <? rb)%nat then
           na <- num_channels self ;;
           for_range (fun channel result =>
                        fa <- freqSignal self ;;
                        fb <- freqSignal other ;;
                        b <- getitem_col fb channel ;;
                        q <- np_divide fa b ;;
                        exec (freqSignal_set q) result)
                     (seq 0 na) result
         else
           fa <- freqSignal self ;;
           fb <- freqSignal other ;;
           q <- np_divide fa fb ;;
           exec (freqSignal_set q) result)%res
  end.

(** The body [__add__] and [__sub__] share, up to the array operation and
    the expression given to the inner [range]. *)
Definition time_operator (op : ndarray C -> ndarray C -> res (ndarray C))
           (inner_range : SignalObj -> res nat)
           (self : SignalObj) (other : operand) : res SignalObj :=
  match other with
  | OOther _ => Raise (TypeError alike_message)
  | OSignal other =>
      (result <- new_result self ;;
       result <- exec (domain_set (PStr "time")) result ;;
       ra <- size_check self None ;;
       if (1 <? ra)%nat then
         rb <- size_check other None ;;
         if (1 <? rb)%nat then
           outer_product_loop timeSignal with_timeSignal op
                              (inner_range other) self other result
         else
           na <- num_channels self ;;
           for_range (fun channel result =>
                        ta <- timeSignal self ;;
                        a <- getitem_col ta channel ;;
                        tb <- timeSignal other ;;
                        q <- op a tb ;;
                        exec (freqSignal_set q) result)
                     (seq 0 na) result
       else
         rb <- size_check other None ;;
         if (1 <? rb)%nat then
           na <- num_channels self ;;
           for_range (fun channel result =>
                        ta <- timeSignal self ;;
                        tb <- timeSignal other ;;
                        b <- getitem_col tb channel ;;
                        q <- op ta b ;;
                        exec (timeSignal_set q) result)
                     (seq 0 na) result
         else
           ta <- timeSignal self ;;
           tb <- timeSignal other ;;
           q <- op ta tb ;;
           exec (timeSignal_set q) result)%res
  end.

(** [__add__]: the inner loop is over [range(other.timeSignal.shape)], a
    tuple. *)
Definition add : SignalObj -> operand -> res SignalObj :=
  time_operator np_add
    (fun other =>
       (_ <- timeSignal other ;;
        Raise (TypeError "'tuple' object cannot be interpreted as an integer"))%res).

(** [__sub__]: the inner loop is over [range(other.num_channels)], a bound
    method. *)
Definition sub : SignalObj -> operand -> res SignalObj :=
  time_operator np_subtract
    (fun other =>
       Raise (TypeError "'method' object cannot be interpreted as an integer")).

(** ** States the setters leave *)

(** The object a successful [timeSignal] assignment leaves. *)
Definition after_timeSignal (newSignal : ndarray C) (n : nat) (z : Z)
           (F : ndarray C) (o : SignalObj) : SignalObj :=
  with_freqSignal (transpose F)
    (with_freqVector
       (np_linspace 0 (IZR (Z.of_nat n - 1) * IZR z / IZR (Z.of_nat n)) n)
       (with_timeVector
          (np_linspace 0 (IZR (Z.of_nat n) / IZR z - 1 / IZR z) n)
          (with_timeLength (Float (Finite (IZR (Z.of_nat n) / IZR z)))
             (with_fftDegree (Float (np_log2 n))
                (with_numSamples (PInt (Z.of_nat n))
                   (with_timeSignal newSignal o)))))).


(** The object a successful [freqSignal] assignment leaves; [t] is the
    inverse transform of the transposed buffer. *)
Definition after_freqSignal (newSignal : ndarray C) (n : nat) (z : Z)
           (t : ndarray C) (o : SignalObj) : SignalObj :=
  with_freqVector
    (np_linspace 0 (IZR ((Z.of_nat n - 1) * z) / IZR (Z.of_nat n)) n)
    (with_timeVector
       (np_arange 0 (IZR (Z.of_nat n) / IZR z) (1 / IZR z))
       (with_timeLength (Float (Finite (IZR (Z.of_nat n) / IZR z)))
          (with_fftDegree (Float (np_log2 n))
             (with_numSamples (PInt (Z.of_nat n))
                (with_timeSignal (transpose (np_real t))
                   (with_freqSignal newSignal o)))))).

(** The inverse transform [freqSignal.setter] computes for a buffer with
    [n] samples and inner axes [s]. *)
Definition ifft_of (a : ndarray C) (n : nat) (s : list nat) : ndarray C :=
  mk_ndarray (shape (transpose a))
    (flat_map idft (chunks (prod_shape s) n (data (transpose a)))).

(** The transform [timeSignal.setter] computes. *)
Definition fft_of (a : ndarray C) (n : nat) (s : list nat) : ndarray C :=
  mk_ndarray (shape (transpose a))
    (flat_map dft (chunks (prod_shape s) n (data (transpose a)))).

(** The object a [timeSignal] assignment of an empty buffer leaves when it
    raises in the frequency-axis formula. *)
Definition after_empty_timeSignal (newSignal : ndarray C) (z : Z)
           (o : SignalObj) : SignalObj :=
  with_timeVector (np_linspace 0 (IZR 0 / IZR z - 1 / IZR z) 0)
    (with_timeLength (Float (Finite (IZR 0 / IZR z)))
       (with_fftDegree (Float NegInf)
          (with_numSamples (PInt 0)
             (with_timeSignal newSignal o)))).

(** ** Values used in the examples *)

(** A real buffer of the given shape. *)
Definition real_array (s : list nat) (l : list R) : ndarray C :=
  mk_ndarray s (map RtoC l).

(** [self] in [SignalObj(buffer, domain, sr)] when the setter is entered:
    [PyTTaObj.__init__] and [self._domain = ...] have run. *)
Definition entering_setter (sr : Z) (domain : string) : SignalObj :=
  mk_SignalObj (PInt sr) (Given PNone) (Given PNone) PNone PNone PNone
               (PStr "No comments.") (PStr domain) None None None None.

(** The time axis of the data model: [k / sampleRate], [k = 0 .. n-1]. *)
Definition time_axis (n : nat) (sr : Z) : list R :=
  map (fun k => INR k / IZR sr) (seq 0 n).

(** The object [SignalObj(np.array([1., 2.]), 'time', 8)] builds. *)
Definition two_samples : SignalObj :=
  after_timeSignal (real_array [2%nat] [1; 2]) 2 8
    (mk_ndarray (shape (transpose (real_array [2%nat] [1; 2])))
       (flat_map dft
          (chunks 1 2 (data (transpose (real_array [2%nat] [1; 2]))))))
    (entering_setter 8 "time").

(** [SignalObj(samplingRate=sr)]: the object every operator starts its
    result from (one zero sample, one channel). *)
Definition default_result (z : Z) : SignalObj :=
  after_timeSignal default_signalArray 1 z
    (mk_ndarray (shape (transpose default_signalArray))
       (flat_map dft
          (chunks (prod_shape []) 1 (data (transpose default_signalArray)))))
    (entering_setter z "time").

(** The frequency axis of the data model: [k * sampleRate / n],
    [k = 0 .. n-1]. *)
Definition freq_axis (n : nat) (sr : Z) : list R :=
  map (fun k => INR k * IZR sr / INR n) (seq 0 n).

(** Two objects agree on what no setter writes. *)
Definition same_settings (o o' : SignalObj) : Prop :=
  _samplingRate o = _samplingRate o' /\
  _freqMin o = _freqMin o' /\
  _freqMax o = _freqMax o' /\
  _comment o = _comment o' /\
  _domain o = _domain o'.

(** The row-major buffer of the [n] x [m] table whose entry [(i, j)] is
    [g i j]. *)
Definition table {A} (n m : nat) (g : nat -> nat -> A) : list A :=
  flat_map (fun i => map (g i) (seq 0 m)) (seq 0 n).

(** Channel [c] of a buffer of [n] samples and [m] channels. *)
Definition channel (l : list C) (n m c : nat) : list C :=
  map (fun i => nth (i * m + c) l (RtoC 0)) (seq 0 n).
(** * Properties *)

(** ** The setters, statement by statement *)

Lemma rev_shape_transpose {A} (a : ndarray A) :
  rev (shape (transpose a)) = shape a.
Proof. unfold transpose; simpl. apply rev_involutive. Qed.

(** The transform of the transposed buffer runs along the sample axis, so it
    is defined as soon as there is a sample. *)
Lemma along_last_axis_transpose f (a : ndarray C) n s :
  shape a = S n :: s ->
  along_last_axis f (transpose a) =
  Ok (mk_ndarray (shape (transpose a))
        (flat_map f (chunks (prod_shape s) (S n) (data (transpose a))))).
Proof.
  intros Hs. unfold along_last_axis.
  rewrite rev_shape_transpose, Hs. reflexivity.
Qed.

Lemma timeSignal_set_ok (o : SignalObj) (a : ndarray C) n s z :
  shape a = S n :: s ->
  _samplingRate o = PInt z ->
  z <> 0%Z ->
  timeSignal_set a o =
  (after_timeSignal a (S n) z
     (mk_ndarray (shape (transpose a))
        (flat_map dft (chunks (prod_shape s) (S n) (data (transpose a)))))
     o,
   Ok tt).
Proof.
  intros Hs Hsr Hz.
  unfold timeSignal_set, bind, assign, get, read, lift, timeSignal, attr,
    samplingRate, np_fft.
  cbn [_timeSignal with_timeSignal]. unfold np_len. rewrite Hs.
  cbn [_samplingRate with_fftDegree with_numSamples with_timeSignal].
  rewrite Hsr. unfold py_truediv, py_mul.
  destruct (Z.eqb_spec z 0) as [|_]; [contradiction|].
  destruct (Z.eqb_spec (Z.of_nat (S n)) 0) as [E|_]; [lia|].
  rewrite (along_last_axis_transpose dft a Hs).
  unfold after_timeSignal. rewrite mult_IZR. reflexivity.
Qed.

(** ** The time axis *)

Lemma linspace_time_axis (n : nat) (z : Z) :
  z <> 0%Z ->
  data (np_linspace 0 (IZR (Z.of_nat n) / IZR z - 1 / IZR z) n) =
  time_axis n z.
Proof.
  intros Hz. assert (Hz' : IZR z <> 0) by (apply not_0_IZR; exact Hz).
  replace (IZR (Z.of_nat n)) with (INR n) by apply INR_IZR_INZ.
  unfold np_linspace, time_axis; cbn [data].
  destruct n as [|[|m]].
  - reflexivity.
  - cbn. f_equal. field. exact Hz'.
  - rewrite (seq_S (S m)), map_app. cbn [Nat.add map].
    assert (Hm : INR (S m) <> 0) by (apply not_0_INR; discriminate).
    f_equal.
    + apply map_ext. intros k.
      replace (S (S m) - 1)%nat with (S m) by lia.
      rewrite (S_INR (S m)). field. split; assumption.
    + f_equal. rewrite (S_INR (S m)). field. exact Hz'.
Qed.

Lemma time_axis_excludes_end (n : nat) (z : Z) :
  z <> 0%Z -> ~ In (INR n / IZR z) (time_axis n z).
Proof.
  intros Hz Hin. assert (Hz' : IZR z <> 0) by (apply not_0_IZR; exact Hz).
  unfold time_axis in Hin. apply in_map_iff in Hin.
  destruct Hin as [k [Hk Hin]]. apply in_seq in Hin.
  assert (E : INR k = INR n).
  { apply (Rmult_eq_reg_r (/ IZR z)); [exact Hk|].
    apply Rinv_neq_0_compat; exact Hz'. }
  apply INR_eq in E. lia.
Qed.

(** C6.  After a buffer with [N > 0] samples is assigned to [timeSignal] (the
    sampling rate being a nonzero int [sr]), [timeVector] has shape [(N,)]
    and holds exactly the [N] values [k / sr], [k = 0 .. N-1], in order; the
    end point [N / sr] (the signal's duration) is not among them. *)
Theorem timeVector_excludes_endpoint
        (o : SignalObj) (a : ndarray C) (n : nat) (s : list nat) (z : Z) :
  shape a = S n :: s ->
  _samplingRate o = PInt z ->
  z <> 0%Z ->
  exists o' tv,
    timeSignal_set a o = (o', Ok tt) /\
    timeVector o' = Ok tv /\
    shape tv = [S n] /\
    length (data tv) = S n /\
    data tv = time_axis (S n) z /\
    _timeLength o' = Float (Finite (INR (S n) / IZR z)) /\
    ~ In (INR (S n) / IZR z) (data tv).
Proof.
  intros Hs Hsr Hz.
  eexists. eexists. split; [apply (timeSignal_set_ok o a Hs Hsr Hz)|].
  split; [reflexivity|]. split; [reflexivity|].
  rewrite linspace_time_axis by exact Hz.
  split; [unfold time_axis; rewrite length_map, length_seq; reflexivity|].
  split; [reflexivity|].
  split; [rewrite INR_IZR_INZ; reflexivity|].
  apply time_axis_excludes_end; exact Hz.
Qed.

(** The spec's instance: sampling rate 8, four samples. *)
Lemma timeVector_excludes_endpoint_witness :
  exists o' tv,
    timeSignal_set (real_array [4%nat] [1; 2; 3; 4]) (entering_setter 8 "time")
    = (o', Ok tt) /\
    timeVector o' = Ok tv /\
    data tv = [0; 0.125; 0.25; 0.375] /\
    ~ In 0.5 (data tv).
Proof.
  destruct (@timeVector_excludes_endpoint
              (entering_setter 8 "time") (real_array [4%nat] [1; 2; 3; 4])
              3%nat [] 8%Z)
    as [o' [tv [H1 [H2 [_ [_ [H5 [_ H7]]]]]]]].
  - reflexivity.
  - reflexivity.
  - lia.
  - exists o', tv. split; [exact H1|]. split; [exact H2|].
    split.
    + rewrite H5. unfold time_axis. cbn.
      f_equal; [lra|f_equal; [lra|f_equal; [lra|f_equal; lra]]].
    + intros Hin. apply H7.
      replace (INR 4 / 8) with 0.5 by (cbn; lra). exact Hin.
Defined.

(** ** Construction *)

Lemma PyTTaObj_init_samplingRate (z : Z) :
  PyTTaObj_init [PInt z] [] =
  Ok (with_domain PNone (entering_setter z "time")).
Proof. reflexivity. Qed.

Lemma PyTTaObj_init_keyword (v : pyval) :
  PyTTaObj_init [] [("samplingRate", v)] =
  Ok (mk_SignalObj v (Given PNone) (Given PNone) PNone PNone PNone
                   (PStr "No comments.") PNone None None None None).
Proof. reflexivity. Qed.

(** [SignalObj(a, 'time', sr)] for a buffer of rank 1 or 2 with a sample. *)
Lemma SignalObj_init_time_ok (a : ndarray C) n s z :
  shape a = S n :: s ->
  (length s <= 1)%nat ->
  z <> 0%Z ->
  SignalObj_init a (PStr "time") [PInt z] [] =
  Ok (after_timeSignal a (S n) z
        (mk_ndarray (shape (transpose a))
           (flat_map dft (chunks (prod_shape s) (S n) (data (transpose a)))))
        (entering_setter z "time")).
Proof.
  intros Hs Hr Hz. unfold SignalObj_init, size_check, ndim. rewrite Hs.
  cbn [rbind length].
  destruct (Nat.ltb_spec 2 (S (length s))) as [H|_]; [lia|].
  rewrite PyTTaObj_init_samplingRate. cbn [rbind domain_or_args1 py_truthy].
  cbn -[timeSignal_set freqSignal_set]. unfold exec.
  rewrite (timeSignal_set_ok _ a Hs (z:=z)); [reflexivity|reflexivity|exact Hz].
Qed.

(** [result = SignalObj(samplingRate=self.samplingRate)] succeeds for every
    operand with a nonzero int sampling rate; the result is a one-sample,
    single-channel signal. *)
Lemma new_result_ok (self : SignalObj) (z : Z) :
  _samplingRate self = PInt z ->
  z <> 0%Z ->
  exists r, new_result self = Ok r /\
            option_map (@shape C) (_freqSignal r) = Some [1%nat] /\
            option_map (@shape C) (_timeSignal r) = Some [1%nat] /\
            _samplingRate r = PInt z.
Proof.
  intros Hsr Hz. unfold new_result, samplingRate. rewrite Hsr.
  unfold SignalObj_init. cbn -[timeSignal_set]. unfold exec.
  erewrite (timeSignal_set_ok _ default_signalArray (n:=0) (s:=[]) (z:=z));
    [|reflexivity|reflexivity|exact Hz].
  eexists. split; [reflexivity|]. repeat split.
Qed.

(** ** Operands of another type *)

(** C9.  Whatever the signal, an operand that is not a [SignalObj] makes each
    of [/], [+] and [-] raise [TypeError] ("A SignalObj can only operate with
    other alike"); nothing is computed before. *)
Theorem operators_reject_other_types (self : SignalObj) (v : pyval) :
  truediv self (OOther v) = Raise (TypeError alike_message) /\
  add self (OOther v) = Raise (TypeError alike_message) /\
  sub self (OOther v) = Raise (TypeError alike_message).
Proof. repeat split. Qed.

(** ** Addition and subtraction *)

(** Past the type check, [result.domain = 'time'] is the second statement of
    [__add__] and [__sub__], and it raises. *)
Lemma time_operator_raises op inner (self other r : SignalObj) :
  new_result self = Ok r ->
  time_operator op inner self (OSignal other) =
  Raise (AttributeError "can't set attribute").
Proof. intros H. unfold time_operator. rewrite H. reflexivity. Qed.

Lemma time_operator_never_returns op inner self other :
  exists e, time_operator op inner self other = Raise e.
Proof.
  destruct other as [other|v]; [|eexists; reflexivity].
  unfold time_operator. destruct (new_result self); eexists; reflexivity.
Qed.

(** C5 (failing input).  [A.timeSignal = [1,2,3]], [B.timeSignal = [4,5,6]],
    both built at 44100 Hz: [A + B] raises [AttributeError] at
    [result.domain = 'time']; no signal with samples [[5,7,9]] is returned. *)
Theorem add_single_channel_raises :
  exists A B,
    SignalObj_init (real_array [3%nat] [1; 2; 3]) (PStr "time") [PInt 44100] []
    = Ok A /\
    SignalObj_init (real_array [3%nat] [4; 5; 6]) (PStr "time") [PInt 44100] []
    = Ok B /\
    add A (OSignal B) = Raise (AttributeError "can't set attribute").
Proof.
  eexists. eexists.
  split; [apply (@SignalObj_init_time_ok _ 2%nat []); [reflexivity|cbn; lia|lia]|].
  split; [apply (@SignalObj_init_time_ok _ 2%nat []); [reflexivity|cbn; lia|lia]|].
  destruct (@new_result_ok
              (after_timeSignal (real_array [3%nat] [1; 2; 3]) 3 44100
                 (mk_ndarray (shape (transpose (real_array [3%nat] [1; 2; 3])))
                    (flat_map dft
                       (chunks (prod_shape []) 3
                          (data (transpose (real_array [3%nat] [1; 2; 3]))))))
                 (entering_setter 44100 "time"))
              44100%Z) as [r [Hr _]]; [reflexivity|lia|].
  unfold add. eapply time_operator_raises. exact Hr.
Qed.

(** ** The rank check *)

Lemma SignalObj_init_rank (a : ndarray C) domain args kwargs :
  (2 < ndim a)%nat ->
  SignalObj_init a domain args kwargs = Raise (AttributeError rank_message).
Proof.
  intros H. unfold SignalObj_init, size_check. cbn [rbind].
  destruct (Nat.ltb_spec 2 (ndim a)) as [_|H']; [reflexivity|lia].
Qed.

(** C7 (as the code has it).  The constructor refuses every buffer of rank
    above 2 with the rank error, whatever the other arguments, and accepts a
    buffer of rank 1 or 2 that has a sample (domain ['time'], nonzero int
    sampling rate), which becomes the object's [timeSignal]. *)
Theorem init_rank_check
        (a b : ndarray C) (domain : pyval) (args : list pyval)
        (kwargs : list (string * pyval)) (n : nat) (s : list nat) (z : Z) :
  (2 < ndim a)%nat ->
  shape b = S n :: s ->
  (ndim b <= 2)%nat ->
  z <> 0%Z ->
  SignalObj_init a domain args kwargs = Raise (AttributeError rank_message) /\
  exists o, SignalObj_init b (PStr "time") [PInt z] [] = Ok o /\
            _timeSignal o = Some b.
Proof.
  intros Ha Hb Hr Hz. split; [apply SignalObj_init_rank; exact Ha|].
  eexists. split.
  - apply (SignalObj_init_time_ok b Hb); [|exact Hz].
    unfold ndim in Hr. rewrite Hb in Hr. cbn in Hr. lia.
  - reflexivity.
Qed.

Lemma init_rank_check_witness :
  SignalObj_init (real_array [2; 2; 2]%nat [1; 2; 3; 4; 5; 6; 7; 8])
                 (PStr "time") [PInt 8] []
  = Raise (AttributeError rank_message) /\
  exists o, SignalObj_init (real_array [2; 2]%nat [1; 2; 3; 4])
                           (PStr "time") [PInt 8] [] = Ok o /\
            _timeSignal o = Some (real_array [2; 2]%nat [1; 2; 3; 4]).
Proof.
  apply (@init_rank_check
           (real_array [2; 2; 2]%nat [1; 2; 3; 4; 5; 6; 7; 8])
           (real_array [2; 2]%nat [1; 2; 3; 4])
           (PStr "time") [PInt 8] [] 1%nat [2%nat] 8%Z).
  - cbn. lia.
  - reflexivity.
  - cbn. lia.
  - lia.
Defined.

(** C7 (counterexample).  The setter itself has no rank check: a 2x2x2
    buffer assigned to [timeSignal] of an existing object is stored. *)
Lemma timeSignal_set_accepts_rank3 :
  exists o o',
    SignalObj_init (real_array [2%nat] [1; 2]) (PStr "time") [PInt 8] []
    = Ok o /\
    timeSignal_set (real_array [2; 2; 2]%nat [1; 2; 3; 4; 5; 6; 7; 8]) o
    = (o', Ok tt) /\
    option_map (@ndim C) (_timeSignal o') = Some 3%nat.
Proof.
  eexists. eexists.
  split; [apply (@SignalObj_init_time_ok _ 1%nat []); [reflexivity|cbn; lia|lia]|].
  split.
  - apply (@timeSignal_set_ok _ _ 1%nat [2; 2]%nat 8%Z);
      [reflexivity|reflexivity|lia].
  - reflexivity.
Qed.

(** ** The domain argument *)

Lemma py_eq_str_true (v : pyval) (s : string) :
  py_eq_str v s = true -> v = PStr s.
Proof.
  destruct v; cbn; try discriminate.
  intros H. apply String.eqb_eq in H. congruence.
Qed.

(** C10 (as the code has it).  When [domain or args[1]] is neither ['time']
    nor ['freq'] (or cannot be evaluated), construction never completes; when
    every earlier statement succeeds, the error is the [AttributeError] of
    the assignment to the read-only [domain] property. *)
Theorem init_unknown_domain_raises
        (a : ndarray C) (domain : pyval) (args : list pyval)
        (kwargs : list (string * pyval)) :
  domain_or_args1 domain args <> Ok (PStr "time") ->
  domain_or_args1 domain args <> Ok (PStr "freq") ->
  (exists e, SignalObj_init a domain args kwargs = Raise e) /\
  (forall d self o',
      (ndim a <= 2)%nat ->
      PyTTaObj_init args kwargs = Ok self ->
      domain_or_args1 domain args = Ok d ->
      timeSignal_set a (with_domain d self) = (o', Ok tt) ->
      SignalObj_init a domain args kwargs =
      Raise (AttributeError "can't set attribute")).
Proof.
  intros Ht Hf.
  assert (Hd : forall d, domain_or_args1 domain args = Ok d ->
                         py_eq_str d "freq" = false /\
                         py_eq_str d "time" = false).
  { intros d Hd. split.
    - destruct (py_eq_str d "freq") eqn:E; [|reflexivity].
      apply py_eq_str_true in E. subst d. contradiction.
    - destruct (py_eq_str d "time") eqn:E; [|reflexivity].
      apply py_eq_str_true in E. subst d. contradiction. }
  split.
  - unfold SignalObj_init, size_check. cbn [rbind].
    destruct (2 <? ndim a)%nat; [eexists; reflexivity|].
    destruct (PyTTaObj_init args kwargs) as [self|e]; [|eexists; reflexivity].
    cbn [rbind].
    destruct (domain_or_args1 domain args) as [d|e] eqn:E;
      [|eexists; reflexivity].
    cbn [rbind]. destruct (Hd d eq_refl) as [H1 H2].
    cbn [_domain with_domain]. rewrite H1, H2.
    unfold exec, bind, domain_set, lift.
    destruct (timeSignal_set a (with_domain d self)) as [o' [u|e]];
      eexists; reflexivity.
  - intros d self o' Hr Hself Hdom Hset.
    unfold SignalObj_init, size_check. cbn [rbind].
    destruct (Nat.ltb_spec 2 (ndim a)) as [H|_]; [lia|].
    rewrite Hself, Hdom. cbn [rbind].
    destruct (Hd d Hdom) as [H1 H2].
    cbn [_domain with_domain]. rewrite H1, H2.
    unfold exec, bind, domain_set, lift. rewrite Hset. reflexivity.
Qed.

Lemma init_unknown_domain_raises_witness :
  (exists e,
      SignalObj_init (real_array [2%nat] [1; 2]) (PStr "frequency")
                     [PInt 8] [] = Raise e) /\
  SignalObj_init (real_array [2%nat] [1; 2]) (PStr "frequency") [PInt 8] []
  = Raise (AttributeError "can't set attribute").
Proof.
  destruct (@init_unknown_domain_raises
              (real_array [2%nat] [1; 2]) (PStr "frequency") [PInt 8] [])
    as [H1 H2].
  - cbn. discriminate.
  - cbn. discriminate.
  - split; [exact H1|].
    eapply (H2 (PStr "frequency")).
    + cbn. lia.
    + reflexivity.
    + reflexivity.
    + apply (@timeSignal_set_ok _ _ 1%nat [] 8%Z);
        [reflexivity|reflexivity|lia].
Defined.

(** C10 (counterexample).  With [domain=None] and ['time'] as the second
    extra positional argument, the constructor completes. *)
Lemma init_completes_with_domain_None :
  py_eq_str PNone "time" = false /\
  py_eq_str PNone "freq" = false /\
  exists o,
    SignalObj_init (real_array [2%nat] [1; 2]) PNone
                   [PInt 8; PStr "time"] [] = Ok o.
Proof.
  split; [reflexivity|]. split; [reflexivity|].
  unfold SignalObj_init. cbn -[timeSignal_set]. unfold exec.
  erewrite (@timeSignal_set_ok _ _ 1%nat [] 8%Z);
    [|reflexivity|reflexivity|lia].
  eexists. reflexivity.
Qed.

(** ** Empty buffers and failed assignments *)

Lemma timeSignal_set_empty_int (o : SignalObj) (a : ndarray C) s z :
  shape a = O :: s ->
  _samplingRate o = PInt z ->
  z <> 0%Z ->
  timeSignal_set a o = (after_empty_timeSignal a z o, Raise ZeroDivisionError).
Proof.
  intros Hs Hsr Hz.
  unfold timeSignal_set, bind, assign, get, read, lift, timeSignal, attr,
    samplingRate.
  cbn [_timeSignal with_timeSignal]. unfold np_len. rewrite Hs.
  cbn [_samplingRate with_fftDegree with_numSamples with_timeSignal].
  rewrite Hsr. cbn [py_truediv].
  destruct (Z.eqb_spec z 0) as [E|_]; [contradiction|].
  reflexivity.
Qed.

Lemma freqSignal_set_empty (o : SignalObj) (a : ndarray C) s :
  shape a = O :: s ->
  freqSignal_set a o = (with_freqSignal a o, Raise ValueError).
Proof.
  intros Hs.
  unfold freqSignal_set, bind, assign, get, lift, freqSignal, attr.
  cbn [_freqSignal with_freqSignal].
  unfold np_ifft, along_last_axis. rewrite rev_shape_transpose, Hs.
  reflexivity.
Qed.

(** C3 (as the code has it).  Assigning a buffer whose first axis is empty to
    [timeSignal] never completes, but no check refuses it up front: the
    buffer, [numSamples = 0] and [fftDegree = log2(0) = -inf] are stored
    first, and the exception is the one of the first division that fails;
    with a nonzero int sampling rate that is the [ZeroDivisionError] of the
    frequency axis, which divides by [numSamples]. *)
Theorem timeSignal_set_empty
        (o : SignalObj) (a : ndarray C) (s : list nat) :
  shape a = O :: s ->
  exists o' e,
    timeSignal_set a o = (o', Raise e) /\
    _timeSignal o' = Some a /\
    _numSamples o' = PInt 0 /\
    _fftDegree o' = Float NegInf /\
    (forall z, _samplingRate o = PInt z -> z <> 0%Z ->
               e = ZeroDivisionError /\
               _timeLength o' = Float (Finite (0 / IZR z)) /\
               option_map (@data R) (_timeVector o') = Some []).
Proof.
  intros Hs.
  unfold timeSignal_set, bind, assign, get, read, lift, timeSignal, attr,
    samplingRate.
  cbn [_timeSignal with_timeSignal]. unfold np_len. rewrite Hs.
  cbn [_samplingRate with_fftDegree with_numSamples with_timeSignal].
  destruct (_samplingRate o) as [|z|str] eqn:Hsr; cbn [py_truediv].
  - eexists. eexists. split; [reflexivity|].
    split; [reflexivity|]. split; [reflexivity|]. split; [reflexivity|].
    intros z' Hz' _. discriminate Hz'.
  - destruct (Z.eqb_spec z 0) as [E|E].
    + cbn [Z.of_nat].
      eexists. eexists. split; [reflexivity|].
      split; [reflexivity|]. split; [reflexivity|]. split; [reflexivity|].
      intros z' Hz' Hne. congruence.
    + cbn. eexists. eexists. split; [reflexivity|].
      split; [reflexivity|]. split; [reflexivity|]. split; [reflexivity|].
      intros z' Hz' _. inversion Hz'; subst z'. repeat split.
  - eexists. eexists. split; [reflexivity|].
    split; [reflexivity|]. split; [reflexivity|]. split; [reflexivity|].
    intros z' Hz' _. discriminate Hz'.
Qed.

Lemma timeSignal_set_empty_witness :
  exists o' e,
    timeSignal_set (real_array [O] []) (entering_setter 8 "time")
    = (o', Raise e) /\
    _fftDegree o' = Float NegInf /\
    e = ZeroDivisionError.
Proof.
  destruct (@timeSignal_set_empty
              (entering_setter 8 "time") (real_array [O] []) [])
    as [o' [e [H1 [_ [_ [H4 H5]]]]]].
  - reflexivity.
  - exists o', e. split; [exact H1|]. split; [exact H4|].
    apply (H5 8%Z); [reflexivity|lia].
Defined.

(** C3 (counterexample).  On a two-sample signal at 8 Hz, assigning the empty
    buffer raises [ZeroDivisionError], and [fftDegree] holds [-inf] when it
    does. *)
Lemma empty_buffer_ZeroDivisionError :
  exists o o',
    SignalObj_init (real_array [2%nat] [1; 2]) (PStr "time") [PInt 8] []
    = Ok o /\
    timeSignal_set (real_array [O] []) o = (o', Raise ZeroDivisionError) /\
    _fftDegree o' = Float NegInf.
Proof.
  eexists. eexists.
  split; [apply (@SignalObj_init_time_ok _ 1%nat []); [reflexivity|cbn; lia|lia]|].
  split.
  - apply (@timeSignal_set_empty_int _ _ [] 8%Z); [reflexivity|reflexivity|lia].
  - reflexivity.
Qed.

(** A [timeSignal] assignment that raises has not reached the frequency axis
    or the spectrum. *)
Lemma timeSignal_set_failure (o o' : SignalObj) (a : ndarray C) (e : exn) :
  timeSignal_set a o = (o', Raise e) ->
  _timeSignal o' = Some a /\
  _freqVector o' = _freqVector o /\
  _freqSignal o' = _freqSignal o /\
  _samplingRate o' = _samplingRate o /\
  _domain o' = _domain o.
Proof.
  unfold timeSignal_set, bind, assign, get, read, lift, timeSignal, attr,
    samplingRate, np_fft.
  cbn [_timeSignal with_timeSignal]. unfold np_len.
  destruct (shape a) as [|n s] eqn:Hs.
  - intros H. inversion H; subst. repeat split.
  - cbn [_samplingRate with_fftDegree with_numSamples with_timeSignal].
    destruct (_samplingRate o) as [|z|str] eqn:Hsr; unfold py_truediv, py_mul.
    + intros H. inversion H; subst. repeat split; assumption.
    + destruct (Z.eqb_spec z 0) as [E|E].
      * intros H. inversion H; subst. repeat split; assumption.
      * cbn [_samplingRate with_timeLength with_timeVector].
        destruct (Z.eqb_spec (Z.of_nat n) 0) as [E0|E0].
        { intros H. inversion H; subst. repeat split; assumption. }
        destruct n as [|n]; [contradiction E0; reflexivity|].
        rewrite (along_last_axis_transpose dft a Hs).
        intros H. inversion H.
    + intros H. inversion H; subst. repeat split; assumption.
Qed.

(** A [freqSignal] assignment that raises has not reached the frequency
    axis. *)
Lemma freqSignal_set_failure (o o' : SignalObj) (a : ndarray C) (e : exn) :
  freqSignal_set a o = (o', Raise e) ->
  _freqSignal o' = Some a /\
  _freqVector o' = _freqVector o /\
  _samplingRate o' = _samplingRate o /\
  _domain o' = _domain o.
Proof.
  unfold freqSignal_set, bind, assign, get, read, lift, freqSignal,
    timeSignal, attr, samplingRate.
  cbn [_freqSignal with_freqSignal].
  destruct (np_ifft (transpose a)) as [t|e0].
  - cbn [_timeSignal with_timeSignal]. unfold np_len.
    destruct (shape (transpose (np_real t))) as [|n s].
    + intros H. inversion H; subst. repeat split.
    + cbn [_samplingRate with_fftDegree with_numSamples with_timeSignal
             with_freqSignal].
      destruct (_samplingRate o) as [|z|str] eqn:Hsr;
        unfold py_truediv, py_mul.
      * intros H. inversion H; subst. repeat split; assumption.
      * destruct (Z.eqb_spec z 0) as [E|E].
        { intros H. inversion H; subst. repeat split; assumption. }
        cbn [_samplingRate with_timeLength with_timeVector].
        destruct (Z.eqb_spec (Z.of_nat n) 0) as [E0|E0].
        { intros H. inversion H; subst. repeat split; assumption. }
        intros H. inversion H.
      * intros H. inversion H; subst. repeat split; assumption.
  - intros H. inversion H; subst. repeat split.
Qed.

(** C8 (as the code has it).  Neither setter validates before it writes: when
    an assignment raises, the buffer assigned is already stored in the
    object; what is still as before is what the setter writes last (the
    frequency axis, and for [timeSignal] the spectrum) and what no setter
    writes (sampling rate, domain). *)
Theorem failed_assignment_state
        (o o1 o2 : SignalObj) (a b : ndarray C) (e1 e2 : exn) :
  timeSignal_set a o = (o1, Raise e1) ->
  freqSignal_set b o = (o2, Raise e2) ->
  (_timeSignal o1 = Some a /\
   _freqVector o1 = _freqVector o /\
   _freqSignal o1 = _freqSignal o /\
   _samplingRate o1 = _samplingRate o /\
   _domain o1 = _domain o) /\
  (_freqSignal o2 = Some b /\
   _freqVector o2 = _freqVector o /\
   _samplingRate o2 = _samplingRate o /\
   _domain o2 = _domain o).
Proof.
  intros H1 H2. split.
  - exact (timeSignal_set_failure o a H1).
  - exact (freqSignal_set_failure o b H2).
Qed.

Lemma two_samples_built :
  SignalObj_init (real_array [2%nat] [1; 2]) (PStr "time") [PInt 8] []
  = Ok two_samples.
Proof.
  rewrite (@SignalObj_init_time_ok _ 1%nat [] 8%Z);
    [reflexivity|reflexivity|cbn; lia|lia].
Qed.

Lemma failed_assignment_state_witness :
  exists o1 o2 e1 e2,
    timeSignal_set (real_array [O] []) two_samples = (o1, Raise e1) /\
    freqSignal_set (real_array [O] []) two_samples = (o2, Raise e2) /\
    _timeSignal o1 = Some (real_array [O] []) /\
    _freqSignal o1 = _freqSignal two_samples /\
    _freqSignal o2 = Some (real_array [O] []) /\
    _freqVector o2 = _freqVector two_samples.
Proof.
  assert (E1 : timeSignal_set (real_array [O] []) two_samples =
               (after_empty_timeSignal (real_array [O] []) 8 two_samples,
                Raise ZeroDivisionError)).
  { apply (@timeSignal_set_empty_int _ _ [] 8%Z);
      [reflexivity|reflexivity|lia]. }
  assert (E2 : freqSignal_set (real_array [O] []) two_samples =
               (with_freqSignal (real_array [O] []) two_samples,
                Raise ValueError)).
  { apply (@freqSignal_set_empty _ _ []). reflexivity. }
  destruct (@failed_assignment_state two_samples _ _
              (real_array [O] []) (real_array [O] []) _ _ E1 E2)
    as [[H1 [_ [H3 _]]] [H4 [H5 _]]].
  eexists. eexists. eexists. eexists.
  split; [exact E1|]. split; [exact E2|].
  split; [exact H1|]. split; [exact H3|]. split; [exact H4|exact H5].
Defined.

(** C8 (counterexample).  The empty buffer assigned to [timeSignal] of the
    valid two-sample signal raises, and the object is not what it was: the
    buffer and [numSamples] are overwritten (the spectrum is still the old
    one, of two points). *)
Lemma failed_assignment_mutates :
  exists o',
    SignalObj_init (real_array [2%nat] [1; 2]) (PStr "time") [PInt 8] []
    = Ok two_samples /\
    timeSignal_set (real_array [O] []) two_samples
    = (o', Raise ZeroDivisionError) /\
    _timeSignal two_samples = Some (real_array [2%nat] [1; 2]) /\
    _timeSignal o' = Some (real_array [O] []) /\
    _numSamples two_samples = PInt 2 /\
    _numSamples o' = PInt 0 /\
    o' <> two_samples.
Proof.
  eexists. split; [exact two_samples_built|].
  split; [apply (@timeSignal_set_empty_int _ _ [] 8%Z);
          [reflexivity|reflexivity|lia]|].
  split; [reflexivity|]. split; [reflexivity|].
  split; [reflexivity|]. split; [reflexivity|].
  intros H. apply (f_equal _numSamples) in H. discriminate H.
Qed.

(** ** The frequency setter *)

Lemma shape_transpose_transpose {A} (a : ndarray A) :
  shape (transpose (transpose a)) = shape a.
Proof. unfold transpose; cbn [shape]. apply rev_involutive. Qed.

Lemma freqSignal_set_ok (o : SignalObj) (a : ndarray C) n s z :
  shape a = S n :: s ->
  _samplingRate o = PInt z ->
  z <> 0%Z ->
  freqSignal_set a o = (after_freqSignal a (S n) z (ifft_of a (S n) s) o, Ok tt).
Proof.
  intros Hs Hsr Hz.
  unfold freqSignal_set, bind, assign, get, read, lift, freqSignal,
    timeSignal, attr, samplingRate, np_ifft.
  cbn [_freqSignal with_freqSignal].
  rewrite (along_last_axis_transpose idft a Hs).
  cbn [_timeSignal with_timeSignal]. unfold np_len.
  assert (E : shape (transpose (np_real
                (mk_ndarray (shape (transpose a))
                   (flat_map idft
                      (chunks (prod_shape s) (S n) (data (transpose a)))))))
              = S n :: s).
  { unfold transpose at 1. cbn [shape np_real].
    change (shape (transpose a)) with (rev (shape a)).
    rewrite rev_involutive. exact Hs. }
  rewrite E.
  cbn [_samplingRate with_fftDegree with_numSamples with_timeSignal
       with_freqSignal].
  rewrite Hsr. unfold py_truediv, py_mul.
  destruct (Z.eqb_spec z 0) as [|_]; [contradiction|].
  destruct (Z.eqb_spec (Z.of_nat (S n)) 0) as [E0|_]; [lia|].
  reflexivity.
Qed.

(** ** Division *)

Lemma new_result_eq (self : SignalObj) (z : Z) :
  _samplingRate self = PInt z ->
  z <> 0%Z ->
  new_result self = Ok (default_result z).
Proof.
  intros Hsr Hz. unfold new_result, samplingRate. rewrite Hsr.
  unfold SignalObj_init. cbn -[timeSignal_set]. unfold exec.
  rewrite (timeSignal_set_ok _ default_signalArray (n:=0) (s:=[]) (z:=z));
    [reflexivity|reflexivity|reflexivity|exact Hz].
Qed.

Lemma size_check_self (o : SignalObj) (ts : ndarray C) d s :
  _timeSignal o = Some ts ->
  shape ts = d :: s ->
  size_check o None = Ok (S (length s)).
Proof.
  intros Ht Hs. unfold size_check, timeSignal, attr, ndim.
  rewrite Ht. cbn [rbind]. rewrite Hs. reflexivity.
Qed.

Lemma num_channels_rank2 (o : SignalObj) (ts : ndarray C) d c s :
  _timeSignal o = Some ts ->
  shape ts = d :: c :: s ->
  num_channels o = Ok c.
Proof.
  intros Ht Hs. unfold num_channels, timeSignal, attr.
  rewrite Ht. cbn [rbind]. rewrite Hs. reflexivity.
Qed.

Lemma num_channels_rank1 (o : SignalObj) (ts : ndarray C) d :
  _timeSignal o = Some ts ->
  shape ts = [d] ->
  num_channels o = Ok 1%nat.
Proof.
  intros Ht Hs. unfold num_channels, timeSignal, attr.
  rewrite Ht. cbn [rbind]. rewrite Hs. reflexivity.
Qed.

Lemma broadcast_shapes_same (N : nat) :
  broadcast_shapes [N] [N] = Some [N].
Proof.
  unfold broadcast_shapes. cbn. rewrite Nat.eqb_refl. reflexivity.
Qed.

(** C1 (what the code does).  Two operands with two-dimensional buffers of
    [N] samples and [n >= 1], [m >= 1] channels: the division raises
    [IndexError].  [result] was built from [np.array([0])], so
    [result.freqSignal] is one-dimensional, and the first
    [result.freqSignal[:, i + channelB] = ...] indexes it with two indices;
    no [n*m]-channel signal is returned. *)
Theorem truediv_multi_channel_raises
        (self other : SignalObj) (z : Z) (N n m : nat)
        (ta fa tb fb : ndarray C) :
  _samplingRate self = PInt z ->
  z <> 0%Z ->
  _timeSignal self = Some ta -> shape ta = [N; S n] ->
  _freqSignal self = Some fa -> shape fa = [N; S n] ->
  _timeSignal other = Some tb -> shape tb = [N; S m] ->
  _freqSignal other = Some fb -> shape fb = [N; S m] ->
  truediv self (OSignal other) = Raise IndexError.
Proof.
  intros Hsr Hz Hta Hsta Hfa Hsfa Htb Hstb Hfb Hsfb.
  unfold truediv. rewrite (new_result_eq self Hsr Hz). cbn [rbind].
  rewrite (size_check_self self Hta Hsta). cbn [rbind length Nat.ltb Nat.leb].
  rewrite (size_check_self other Htb Hstb). cbn [rbind length Nat.ltb Nat.leb].
  unfold outer_product_loop.
  rewrite (num_channels_rank2 self Hta Hsta). cbn [rbind seq for_range].
  rewrite (num_channels_rank2 other Htb Hstb). cbn [rbind seq for_range].
  unfold freqSignal, attr. rewrite Hfa, Hfb. cbn [rbind].
  unfold getitem_col. rewrite Hsfa, Hsfb.
  cbn [Nat.ltb Nat.leb rbind].
  unfold np_divide, np_binop. cbn [shape].
  rewrite broadcast_shapes_same. cbn [rbind].
  reflexivity.
Qed.

(** The spec's example: [A = [[1,1],[2,2]]], [B = [[10,10],[20,20]]]. *)
Lemma truediv_multi_channel_raises_witness :
  exists A B,
    SignalObj_init (real_array [2; 2]%nat [1; 1; 2; 2]) (PStr "time")
                   [PInt 44100] [] = Ok A /\
    SignalObj_init (real_array [2; 2]%nat [10; 10; 20; 20]) (PStr "time")
                   [PInt 44100] [] = Ok B /\
    truediv A (OSignal B) = Raise IndexError.
Proof.
  eexists. eexists.
  split; [apply (@SignalObj_init_time_ok _ 1%nat [2%nat]);
          [reflexivity|cbn; lia|lia]|].
  split; [apply (@SignalObj_init_time_ok _ 1%nat [2%nat]);
          [reflexivity|cbn; lia|lia]|].
  eapply (@truediv_multi_channel_raises _ _ 44100%Z 2%nat 1%nat 1%nat).
  - reflexivity.
  - lia.
  - reflexivity.
  - reflexivity.
  - reflexivity.
  - reflexivity.
  - reflexivity.
  - reflexivity.
  - reflexivity.
  - reflexivity.
Defined.

Lemma getitem_col_ok {A} (fa : ndarray A) (N c ch : nat) :
  shape fa = [N; c] ->
  (ch < c)%nat ->
  exists a, getitem_col fa ch = Ok a /\ shape a = [N].
Proof.
  intros Hs Hc. unfold getitem_col. rewrite Hs.
  destruct (Nat.ltb_spec ch c) as [_|H]; [|lia].
  eexists. split; reflexivity.
Qed.

Lemma np_binop_same {A} (f : A -> A -> A) (a b : ndarray A) (N : nat) :
  shape a = [N] ->
  shape b = [N] ->
  exists q, np_binop f a b = Ok q /\ shape q = [N].
Proof.
  intros Ha Hb. unfold np_binop. rewrite Ha, Hb, broadcast_shapes_same.
  eexists. split; reflexivity.
Qed.

(** Each assignment through the setter replaces everything an earlier one
    derived. *)
Lemma after_freqSignal_overwrites q n z t q' n' z' t' (o : SignalObj) :
  after_freqSignal q n z t (after_freqSignal q' n' z' t' o) =
  after_freqSignal q n z t o.
Proof. reflexivity. Qed.

Lemma last_seq (n : nat) : last (seq 0 (S n)) O = n.
Proof. rewrite seq_S. apply last_last. Qed.

(** The loop [for channel in range(...): result.freqSignal =
    self.freqSignal[:, channel] / other.freqSignal] keeps the quotient of the
    last channel only. *)
Lemma truediv_channel_loop (self other : SignalObj) (fa fb : ndarray C)
      (N c : nat) (z : Z) (l : list nat) (r : SignalObj) :
  _freqSignal self = Some fa -> shape fa = [S N; c] ->
  _freqSignal other = Some fb -> shape fb = [S N] ->
  z <> 0%Z ->
  _samplingRate r = PInt z ->
  l <> [] ->
  (forall ch, In ch l -> (ch < c)%nat) ->
  exists a q,
    getitem_col fa (last l O) = Ok a /\
    np_divide a fb = Ok q /\
    shape q = [S N] /\
    for_range (fun channel result =>
                 (fa <- freqSignal self ;;
                  a <- getitem_col fa channel ;;
                  fb <- freqSignal other ;;
                  q <- np_divide a fb ;;
                  exec (freqSignal_set q) result)%res) l r
    = Ok (after_freqSignal q (S N) z (ifft_of q (S N) []) r).
Proof.
  intros Hfa Hsfa Hfb Hsfb Hz. revert r.
  induction l as [|x l IH]; intros r Hsr Hne Hin; [contradiction|].
  destruct (@getitem_col_ok _ fa (S N) c x Hsfa (Hin x (or_introl eq_refl)))
    as [a [Ha Hsa]].
  destruct (@np_binop_same _ Cdiv a fb (S N) Hsa Hsfb) as [q [Hq Hsq]].
  assert (Hstep :
            (fa <- freqSignal self ;;
             a <- getitem_col fa x ;;
             fb <- freqSignal other ;;
             q <- np_divide a fb ;;
             exec (freqSignal_set q) r)%res
            = Ok (after_freqSignal q (S N) z (ifft_of q (S N) []) r)).
  { unfold freqSignal, attr. rewrite Hfa, Hfb. cbn [rbind].
    rewrite Ha. cbn [rbind]. unfold np_divide. rewrite Hq. cbn [rbind].
    unfold exec. rewrite (freqSignal_set_ok r q Hsq Hsr Hz). reflexivity. }
  destruct l as [|y l'].
  - exists a, q. cbn [last for_range].
    split; [exact Ha|]. split; [exact Hq|]. split; [exact Hsq|].
    cbv beta. rewrite Hstep. reflexivity.
  - destruct (IH (after_freqSignal q (S N) z (ifft_of q (S N) []) r))
      as [a' [q' [Ha' [Hq' [Hsq' Hloop]]]]].
    + exact Hsr.
    + discriminate.
    + intros ch Hch. apply Hin. right. exact Hch.
    + exists a', q'.
      split; [exact Ha'|]. split; [exact Hq'|]. split; [exact Hsq'|].
      change (for_range ?f (x :: y :: l') r)
        with (rbind (f x r) (fun s' => for_range f (y :: l') s')).
      cbv beta. rewrite Hstep. cbn [rbind]. rewrite Hloop.
      rewrite after_freqSignal_overwrites. reflexivity.
Qed.

Lemma shape_after_freqSignal_time q n z s (o : SignalObj) :
  option_map (@shape C)
             (_timeSignal (after_freqSignal q n z (ifft_of q n s) o))
  = Some (shape q).
Proof.
  cbn. unfold transpose. cbn [shape]. rewrite rev_involutive. reflexivity.
Qed.

(** C4 (what the code does).  [self] with [N >= 1] samples and [n >= 1]
    channels, [other] single-channel with [N] samples: every pass of the loop
    assigns [result.freqSignal] anew, so the division returns a
    single-channel signal, the quotient of the last channel of [self] by
    [other]; for [n >= 2] that is not a signal of [n] channels.  Addition and
    subtraction of the same operands raise [AttributeError]. *)
Theorem truediv_multi_by_single_keeps_last_channel
        (self other : SignalObj) (z : Z) (N n : nat)
        (ta fa tb fb : ndarray C) :
  _samplingRate self = PInt z ->
  z <> 0%Z ->
  _timeSignal self = Some ta -> shape ta = [S N; S n] ->
  _freqSignal self = Some fa -> shape fa = [S N; S n] ->
  _timeSignal other = Some tb -> shape tb = [S N] ->
  _freqSignal other = Some fb -> shape fb = [S N] ->
  (exists a q r,
      getitem_col fa n = Ok a /\
      np_divide a fb = Ok q /\
      truediv self (OSignal other) = Ok r /\
      freqSignal r = Ok q /\
      size_check r None = Ok 1%nat /\
      num_channels r = Ok 1%nat /\
      num_channels self = Ok (S n)) /\
  add self (OSignal other) = Raise (AttributeError "can't set attribute") /\
  sub self (OSignal other) = Raise (AttributeError "can't set attribute").
Proof.
  intros Hsr Hz Hta Hsta Hfa Hsfa Htb Hstb Hfb Hsfb.
  split.
  - destruct (@truediv_channel_loop self other fa fb N (S n) z
                (seq 0 (S n)) (with_domain (PStr "freq") (default_result z))
                Hfa Hsfa Hfb Hsfb Hz eq_refl)
      as [a [q [Ha [Hq [Hsq Hloop]]]]].
    + discriminate.
    + intros ch Hch. apply in_seq in Hch. lia.
    + rewrite last_seq in Ha.
      exists a, q. eexists.
      split; [exact Ha|]. split; [exact Hq|].
      split.
      * unfold truediv. rewrite (new_result_eq self Hsr Hz). cbn [rbind].
        rewrite (size_check_self self Hta Hsta).
        cbn [rbind length Nat.ltb Nat.leb].
        rewrite (size_check_self other Htb Hstb).
        cbn [rbind length Nat.ltb Nat.leb].
        rewrite (num_channels_rank2 self Hta Hsta). cbn [rbind].
        exact Hloop.
      * split; [reflexivity|].
        pose proof (shape_after_freqSignal_time q (S N) z []
                      (with_domain (PStr "freq") (default_result z))) as Hsh.
        rewrite Hsq in Hsh.
        destruct (_timeSignal
                    (after_freqSignal q (S N) z (ifft_of q (S N) [])
                       (with_domain (PStr "freq") (default_result z))))
          as [ts|] eqn:Hts; [|discriminate Hsh].
        cbn in Hsh. injection Hsh as Hsh.
        split; [apply (size_check_self _ Hts Hsh)|].
        split; [apply (num_channels_rank1 _ Hts Hsh)|].
        apply (num_channels_rank2 self Hta Hsta).
  - split; unfold add, sub;
      apply (@time_operator_raises _ _ self other (default_result z));
      apply (new_result_eq self Hsr Hz).
Qed.

Lemma truediv_multi_by_single_keeps_last_channel_witness :
  exists A B r,
    SignalObj_init (real_array [2; 2]%nat [1; 2; 3; 4]) (PStr "time")
                   [PInt 44100] [] = Ok A /\
    SignalObj_init (real_array [2%nat] [1; 1]) (PStr "time")
                   [PInt 44100] [] = Ok B /\
    truediv A (OSignal B) = Ok r /\
    num_channels A = Ok 2%nat /\
    num_channels r = Ok 1%nat /\
    add A (OSignal B) = Raise (AttributeError "can't set attribute").
Proof.
  pose proof (@SignalObj_init_time_ok
                (real_array [2; 2]%nat [1; 2; 3; 4]) 1%nat [2%nat] 44100%Z
                eq_refl) as HA.
  pose proof (@SignalObj_init_time_ok
                (real_array [2%nat] [1; 1]) 1%nat [] 44100%Z eq_refl) as HB.
  eexists. eexists.
  destruct (@truediv_multi_by_single_keeps_last_channel
              _ _ 44100%Z 1%nat 1%nat _ _ _ _
              (eq_refl : _samplingRate
                           (after_timeSignal
                              (real_array [2; 2]%nat [1; 2; 3; 4]) 2 44100
                              (mk_ndarray
                                 (shape (transpose
                                           (real_array [2; 2]%nat [1; 2; 3; 4])))
                                 (flat_map dft
                                    (chunks (prod_shape [2%nat]) 2
                                       (data (transpose
                                                (real_array [2; 2]%nat
                                                   [1; 2; 3; 4]))))))
                              (entering_setter 44100 "time"))
                         = PInt 44100)
              ltac:(lia) eq_refl eq_refl eq_refl eq_refl
              (eq_refl : _timeSignal
                           (after_timeSignal
                              (real_array [2%nat] [1; 1]) 2 44100
                              (mk_ndarray
                                 (shape (transpose (real_array [2%nat] [1; 1])))
                                 (flat_map dft
                                    (chunks (prod_shape []) 2
                                       (data (transpose
                                                (real_array [2%nat] [1; 1]))))))
                              (entering_setter 44100 "time"))
                         = Some (real_array [2%nat] [1; 1]))
              eq_refl eq_refl eq_refl)
    as [[a [q [r [_ [_ [Hr [_ [_ [Hc HcA]]]]]]]]] [Hadd _]].
  exists r.
  split; [apply HA; [cbn; lia|lia]|].
  split; [apply HB; [cbn; lia|lia]|].
  split; [exact Hr|]. split; [exact HcA|]. split; [exact Hc|exact Hadd].
Defined.

(** ** The discrete Fourier transform and its inverse *)

Ltac Calg :=
  unfold Cadd, Csub, Cmul, Cscale, Cexp, RtoC, Re, Im in *;
  repeat match goal with z : C |- _ => destruct z end;
  cbn [fst snd] in *.

Ltac Cring := Calg; apply injective_projections; cbn [fst snd]; ring.

Lemma Cadd_0_r (z : C) : Cadd z (RtoC 0) = z.
Proof. Cring. Qed.

Lemma Cadd_assoc4 (a b c d : C) :
  Cadd (Cadd a b) (Cadd c d) = Cadd (Cadd a c) (Cadd b d).
Proof. Cring. Qed.

Lemma Cmul_add_distr_r (a b c : C) :
  Cmul (Cadd a b) c = Cadd (Cmul a c) (Cmul b c).
Proof. Cring. Qed.

Lemma Cmul_add_distr_l (a b c : C) :
  Cmul c (Cadd a b) = Cadd (Cmul c a) (Cmul c b).
Proof. Cring. Qed.

Lemma Cmul_0_l (c : C) : Cmul (RtoC 0) c = RtoC 0.
Proof. Cring. Qed.

Lemma Cmul_0_r (c : C) : Cmul c (RtoC 0) = RtoC 0.
Proof. Cring. Qed.

Lemma Cmul_assoc (a b c : C) : Cmul (Cmul a b) c = Cmul a (Cmul b c).
Proof. Cring. Qed.

Lemma Cexp_add (a b : R) : Cmul (Cexp a) (Cexp b) = Cexp (a + b).
Proof. unfold Cexp. rewrite cos_plus, sin_plus. Cring. Qed.

Lemma Cexp_0 : Cexp 0 = RtoC 1.
Proof. unfold Cexp, RtoC. rewrite cos_0, sin_0. reflexivity. Qed.

Lemma Cexp_2PI_nat (k : nat) : Cexp (2 * PI * INR k) = RtoC 1.
Proof.
  induction k as [|k IH].
  - cbn [INR]. rewrite Rmult_0_r. apply Cexp_0.
  - rewrite S_INR.
    replace (2 * PI * (INR k + 1)) with (2 * PI * INR k + 2 * PI) by ring.
    rewrite <- Cexp_add, IH. unfold Cexp. rewrite cos_2PI, sin_2PI.
    Cring.
Qed.

Lemma Cexp_neg (x : R) : Cexp (- x) = (cos x, - sin x).
Proof. unfold Cexp. rewrite cos_neg, sin_neg. reflexivity. Qed.

(** [e^(2 pi i (n - m)) = 1] *)
Lemma Cexp_2PI_diff (n m : nat) :
  Cexp (2 * PI * (INR n - INR m)) = RtoC 1.
Proof.
  replace (2 * PI * (INR n - INR m))
    with (2 * PI * INR n + - (2 * PI * INR m)) by ring.
  rewrite <- Cexp_add, Cexp_2PI_nat, Cexp_neg.
  pose proof (Cexp_2PI_nat m) as H. unfold Cexp, RtoC in H.
  injection H as Hc Hs. rewrite Hc, Hs. Cring.
Qed.

(** No angle strictly between 0 and a full turn gives 1. *)
Lemma Cexp_neq_1_pos (x : R) : 0 < x < 2 * PI -> Cexp x <> RtoC 1.
Proof.
  intros [H0 H1] H. unfold Cexp, RtoC in H. injection H as Hc Hs.
  destruct (sin_eq_O_2PI_0 x) as [E|[E|E]]; try lra.
  rewrite E, cos_PI in Hc. lra.
Qed.

Lemma Cexp_neq_1 (x : R) : x <> 0 -> - (2 * PI) < x < 2 * PI -> Cexp x <> RtoC 1.
Proof.
  intros Hx [H0 H1]. destruct (Rlt_or_le 0 x) as [Hp|Hn].
  - apply Cexp_neq_1_pos. lra.
  - intros H. apply (@Cexp_neq_1_pos (- x)); [lra|].
    rewrite Cexp_neg. unfold Cexp, RtoC in H. injection H as Hc Hs.
    rewrite Hc, Hs. unfold RtoC. apply injective_projections; cbn [fst snd]; ring.
Qed.

Lemma Cmul_integral (a g : C) :
  Cmul a g = RtoC 0 -> a <> RtoC 0 -> g = RtoC 0.
Proof.
  destruct a as [a b], g as [c d]. unfold Cmul, RtoC, Re, Im. cbn [fst snd].
  intros H Ha. injection H as H1 H2.
  assert (Hn : a * a + b * b <> 0).
  { intros E. apply Ha.
    assert (a = 0) by nra. assert (b = 0) by nra. subst. reflexivity. }
  assert (Hc : c * (a * a + b * b) = 0)
    by (replace (c * (a * a + b * b))
          with (a * (a * c - b * d) + b * (a * d + b * c)) by ring;
        rewrite H1, H2; ring).
  assert (Hd : d * (a * a + b * b) = 0)
    by (replace (d * (a * a + b * b))
          with (a * (a * d + b * c) - b * (a * c - b * d)) by ring;
        rewrite H1, H2; ring).
  apply Rmult_integral in Hc. apply Rmult_integral in Hd.
  destruct Hc as [Hc|Hc]; [|contradiction].
  destruct Hd as [Hd|Hd]; [|contradiction].
  subst. reflexivity.
Qed.

(** *** Finite sums *)

Lemma Csum_app (l1 l2 : list C) :
  Csum (l1 ++ l2) = Cadd (Csum l1) (Csum l2).
Proof.
  induction l1 as [|z l1 IH]; cbn [Csum app].
  - Cring.
  - rewrite IH. Cring.
Qed.

Lemma Csum_map_ext {A} (f g : A -> C) (l : list A) :
  (forall x, In x l -> f x = g x) -> Csum (map f l) = Csum (map g l).
Proof.
  intros H. f_equal. apply map_ext_in. exact H.
Qed.

Lemma Csum_map_add {A} (f g : A -> C) (l : list A) :
  Csum (map (fun x => Cadd (f x) (g x)) l) =
  Cadd (Csum (map f l)) (Csum (map g l)).
Proof.
  induction l as [|x l IH]; cbn [map Csum].
  - Cring.
  - rewrite IH. apply Cadd_assoc4.
Qed.

Lemma Csum_map_0 {A} (l : list A) :
  Csum (map (fun _ => RtoC 0) l) = RtoC 0.
Proof.
  induction l as [|x l IH]; cbn [map Csum]; [reflexivity|].
  rewrite IH. apply Cadd_0_r.
Qed.

Lemma Csum_map_mul_r {A} (f : A -> C) (c : C) (l : list A) :
  Csum (map (fun x => Cmul (f x) c) l) = Cmul (Csum (map f l)) c.
Proof.
  induction l as [|x l IH]; cbn [map Csum].
  - symmetry. apply Cmul_0_l.
  - rewrite IH. symmetry. apply Cmul_add_distr_r.
Qed.

Lemma Csum_map_mul_l {A} (f : A -> C) (c : C) (l : list A) :
  Csum (map (fun x => Cmul c (f x)) l) = Cmul c (Csum (map f l)).
Proof.
  induction l as [|x l IH]; cbn [map Csum].
  - symmetry. apply Cmul_0_r.
  - rewrite IH. symmetry. apply Cmul_add_distr_l.
Qed.

Lemma Csum_swap {A B} (f : A -> B -> C) (l1 : list A) (l2 : list B) :
  Csum (map (fun k => Csum (map (fun m => f k m) l2)) l1) =
  Csum (map (fun m => Csum (map (fun k => f k m) l1)) l2).
Proof.
  induction l1 as [|k l1 IH]; cbn [map Csum].
  - symmetry. apply Csum_map_0.
  - rewrite IH. symmetry. apply Csum_map_add.
Qed.

(** A sum with a single non-zero term. *)
Lemma Csum_single (g : nat -> C) (n a len : nat) :
  Csum (map (fun m => if (m =? n)%nat then g m else RtoC 0) (seq a len)) =
  if ((a <=? n) && (n <? a + len))%nat then g n else RtoC 0.
Proof.
  revert a. induction len as [|len IH]; intros a; cbn [seq map Csum].
  - destruct (Nat.leb_spec a n), (Nat.ltb_spec n (a + 0)); cbn; try reflexivity.
    lia.
  - rewrite IH.
    destruct (Nat.eqb_spec a n) as [E|E].
    + subst a.
      destruct (Nat.leb_spec (S n) n); [lia|].
      destruct (Nat.leb_spec n n); [|lia].
      destruct (Nat.ltb_spec n (n + S len)); [|lia].
      cbn. apply Cadd_0_r.
    + destruct (Nat.leb_spec (S a) n), (Nat.ltb_spec n (S a + len)),
        (Nat.leb_spec a n), (Nat.ltb_spec n (a + S len));
        cbn; try lia; Cring.
Qed.

(** *** The geometric sum of a root of unity *)


Lemma Csum_seq_S (f : nat -> C) (N : nat) :
  Csum (map f (seq 0 (S N))) = Cadd (Csum (map f (seq 0 N))) (f N).
Proof.
  rewrite seq_S, map_app, Csum_app. cbn [Nat.add map Csum].
  rewrite Cadd_0_r. reflexivity.
Qed.

(** *** The geometric sum of a root of unity *)

Lemma geom_telescope (N : nat) (theta : R) :
  Cmul (Csub (Cexp theta) (RtoC 1))
       (Csum (map (fun k => Cexp (INR k * theta)) (seq 0 N))) =
  Csub (Cexp (INR N * theta)) (RtoC 1).
Proof.
  induction N as [|N IH].
  - cbn [seq map Csum INR]. rewrite Rmult_0_l, Cexp_0. Cring.
  - rewrite Csum_seq_S, Cmul_add_distr_l, IH.
    replace (INR (S N) * theta) with (theta + INR N * theta)
      by (rewrite S_INR; ring).
    rewrite <- Cexp_add.
    generalize (Cexp theta) (Cexp (INR N * theta)). intros a b. Cring.
Qed.

Lemma geom_diag (N : nat) :
  Csum (map (fun k => Cexp (INR k * 0)) (seq 0 N)) = RtoC (INR N).
Proof.
  induction N as [|N IH].
  - reflexivity.
  - rewrite Csum_seq_S, IH, Rmult_0_r, Cexp_0, S_INR. Cring.
Qed.

Lemma geom_zero (N n m : nat) :
  (n < N)%nat -> (m < N)%nat -> n <> m ->
  Csum (map (fun k => Cexp (INR k * (2 * PI * (INR n - INR m) / INR N)))
            (seq 0 N)) = RtoC 0.
Proof.
  intros Hn Hm Hne.
  assert (HN : 0 < INR N) by (apply lt_0_INR; lia).
  assert (Hn' : INR n < INR N) by (apply lt_INR; exact Hn).
  assert (Hm' : INR m < INR N) by (apply lt_INR; exact Hm).
  assert (Hn0 : 0 <= INR n) by apply pos_INR.
  assert (Hm0 : 0 <= INR m) by apply pos_INR.
  assert (Hd : INR n - INR m <> 0).
  { intros E. apply Hne. apply INR_eq. lra. }
  pose proof PI_RGT_0 as Hpi.
  set (q := (INR n - INR m) / INR N).
  assert (Hq1 : q < 1).
  { unfold q. apply (Rmult_lt_reg_r (INR N)); [exact HN|].
    unfold Rdiv. rewrite Rmult_assoc, Rinv_l by lra. lra. }
  assert (Hq2 : -1 < q).
  { unfold q. apply (Rmult_lt_reg_r (INR N)); [exact HN|].
    unfold Rdiv. rewrite Rmult_assoc, Rinv_l by lra. lra. }
  assert (Hq0 : q <> 0).
  { unfold q. intros E. apply Hd.
    apply (Rmult_eq_reg_r (/ INR N)); [|apply Rinv_neq_0_compat; lra].
    unfold Rdiv in E. rewrite E. ring. }
  replace (2 * PI * (INR n - INR m) / INR N) with (2 * PI * q)
    by (unfold q; field; lra).
  apply (@Cmul_integral (Csub (Cexp (2 * PI * q)) (RtoC 1))).
  - rewrite geom_telescope.
    replace (INR N * (2 * PI * q)) with (2 * PI * (INR n - INR m))
      by (unfold q; field; lra).
    rewrite Cexp_2PI_diff. Cring.
  - intros E.
    apply (@Cexp_neq_1 (2 * PI * q)).
    + intros E0. apply Rmult_integral in E0. destruct E0; [lra|contradiction].
    + split; nra.
    + revert E. generalize (Cexp (2 * PI * q)). intros a E. Calg.
      injection E as E1 E2. apply injective_projections; cbn [fst snd]; lra.
Qed.

(** *** Inversion *)

Lemma map_combine_seq {A B} (f : nat * A -> B) (d : A) (x : list A) (a : nat) :
  map f (combine (seq a (length x)) x) =
  map (fun m => f (m, nth (m - a) x d)) (seq a (length x)).
Proof.
  revert a. induction x as [|y x IH]; intros a; [reflexivity|].
  cbn [length seq combine map]. rewrite Nat.sub_diag. cbn [nth]. f_equal.
  rewrite IH. apply map_ext_in. intros m Hm. apply in_seq in Hm.
  replace (m - a)%nat with (S (m - S a)) by lia. reflexivity.
Qed.

Lemma dft_coeff_nth (sign : R) (x : list C) (k : nat) :
  dft_coeff sign x k =
  Csum (map (fun m => Cmul (nth m x (RtoC 0)) (twiddle sign (length x) k m))
            (seq 0 (length x))).
Proof.
  unfold dft_coeff.
  rewrite (map_combine_seq _ (RtoC 0) x 0). cbn [fst snd]. f_equal.
  apply map_ext. intros m. rewrite Nat.sub_0_r. reflexivity.
Qed.

Lemma nth_map_seq {A} (f : nat -> A) (d : A) (N k : nat) :
  (k < N)%nat -> nth k (map f (seq 0 N)) d = f k.
Proof.
  intros H. rewrite (nth_indep _ d (f O)) by (rewrite length_map, length_seq; exact H).
  rewrite map_nth, seq_nth by exact H. reflexivity.
Qed.

Lemma map_nth_seq {A} (d : A) (x : list A) :
  map (fun n => nth n x d) (seq 0 (length x)) = x.
Proof.
  induction x as [|y x IH]; [reflexivity|].
  cbn [length seq map nth]. f_equal.
  rewrite <- seq_shift, map_map. exact IH.
Qed.

Lemma length_dft (x : list C) : length (dft x) = length x.
Proof. unfold dft. rewrite length_map, length_seq. reflexivity. Qed.

Lemma twiddle_product (N k n m : nat) :
  N <> O ->
  Cmul (twiddle (-1) N k m) (twiddle 1 N n k) =
  Cexp (INR k * (2 * PI * (INR n - INR m) / INR N)).
Proof.
  intros HN. unfold twiddle. rewrite Cexp_add. f_equal.
  field. apply not_0_INR. exact HN.
Qed.

(** The inverse transform undoes the transform, exactly. *)
Lemma idft_dft (x : list C) : x <> [] -> idft (dft x) = x.
Proof.
  intros Hx.
  assert (HN : length x <> O) by (destruct x; [contradiction|discriminate]).
  unfold idft. rewrite length_dft.
  etransitivity; [|apply (map_nth_seq (RtoC 0) x)].
  apply map_ext_in. intros n Hn. apply in_seq in Hn.
  rewrite dft_coeff_nth, length_dft.
  rewrite (Csum_map_ext
             (fun k => Cmul (nth k (dft x) (RtoC 0)) (twiddle 1 (length x) n k))
             (fun k => Csum (map (fun m =>
                                    Cmul (nth m x (RtoC 0))
                                         (Cexp (INR k * (2 * PI * (INR n - INR m)
                                                         / INR (length x)))))
                                 (seq 0 (length x))))).
  2:{ intros k Hk. apply in_seq in Hk.
      unfold dft. rewrite nth_map_seq by lia.
      rewrite dft_coeff_nth, <- Csum_map_mul_r.
      apply Csum_map_ext. intros m _.
      rewrite Cmul_assoc, twiddle_product by exact HN. reflexivity. }
  rewrite Csum_swap.
  rewrite (Csum_map_ext
             (fun m => Csum (map (fun k =>
                                    Cmul (nth m x (RtoC 0))
                                         (Cexp (INR k * (2 * PI * (INR n - INR m)
                                                         / INR (length x)))))
                                 (seq 0 (length x))))
             (fun m => if (m =? n)%nat
                       then Cmul (nth m x (RtoC 0)) (RtoC (INR (length x)))
                       else RtoC 0)).
  2:{ intros m Hm. apply in_seq in Hm. rewrite Csum_map_mul_l.
      destruct (Nat.eqb_spec m n) as [E|E].
      - subst m. replace (2 * PI * (INR n - INR n) / INR (length x)) with 0.
        + rewrite geom_diag. reflexivity.
        + unfold Rdiv. ring.
      - rewrite geom_zero by lia. apply Cmul_0_r. }
  rewrite Csum_single. cbn [Nat.leb Nat.add andb].
  destruct (Nat.ltb_spec n (length x)) as [_|H]; [|lia].
  assert (HR : INR (length x) <> 0) by (apply not_0_INR; exact HN).
  generalize (nth n x (RtoC 0)). intros c. Calg.
  apply injective_projections; cbn [fst snd]; field; exact HR.
Qed.

(** ** One-dimensional buffers *)

Lemma flat_map_singletons {A B D} (h : A -> B) (g : B -> list D) (l : list A) :
  flat_map g (flat_map (fun i => [h i]) l) = flat_map (fun i => g (h i)) l.
Proof.
  induction l as [|i l IH]; [reflexivity|].
  cbn [flat_map app]. rewrite IH. reflexivity.
Qed.

Lemma flat_map_nth_error {A} (l : list A) (a : nat) :
  flat_map (fun i => match nth_error l (i - a) with
                     | Some x => [x]
                     | None => []
                     end) (seq a (length l)) = l.
Proof.
  revert a. induction l as [|y l IH]; intros a; [reflexivity|].
  cbn [length seq flat_map]. rewrite Nat.sub_diag. cbn [nth_error app].
  f_equal. rewrite <- (IH (S a)) at 2.
  rewrite !flat_map_concat_map. f_equal.
  apply map_ext_in. intros i Hi. apply in_seq in Hi.
  replace (i - a)%nat with (S (i - S a)) by lia. reflexivity.
Qed.

(** Transposing a one-dimensional array changes nothing. *)
Lemma transpose_rank1 {A} (N : nat) (l : list A) :
  length l = N ->
  transpose (mk_ndarray [N] l) = mk_ndarray [N] l.
Proof.
  intros Hl. unfold transpose. cbn [shape rev app]. f_equal.
  cbn [indices]. 
  rewrite (flat_map_ext (fun i => map (cons i) [[]]) (fun i => [[i]]))
    by reflexivity.
  rewrite flat_map_singletons. subst N.
  rewrite <- (flat_map_nth_error l 0) at 2.
  apply flat_map_ext. intros i. unfold item, offset.
  cbn. rewrite Nat.sub_0_r. reflexivity.
Qed.

Lemma chunks_one {A} (n : nat) (l : list A) :
  length l = n -> chunks 1 n l = [l].
Proof. intros H. cbn [chunks]. subst n. rewrite firstn_all. reflexivity. Qed.

Lemma length_idft (X : list C) : length (idft X) = length X.
Proof. unfold idft. rewrite length_map, length_seq. reflexivity. Qed.

(** The spectrum [timeSignal.setter] stores for a one-dimensional buffer. *)
Lemma fft_of_rank1 (N : nat) (l : list C) :
  length l = N ->
  transpose (fft_of (mk_ndarray [N] l) N []) = mk_ndarray [N] (dft l).
Proof.
  intros Hl. unfold fft_of. rewrite (transpose_rank1 l Hl).
  cbn [shape data prod_shape fold_right]. rewrite (chunks_one l Hl).
  cbn [flat_map]. rewrite app_nil_r.
  apply transpose_rank1. rewrite length_dft. exact Hl.
Qed.

(** The samples [freqSignal.setter] stores for a one-dimensional buffer. *)
Lemma ifft_of_rank1 (N : nat) (l : list C) :
  length l = N ->
  transpose (np_real (ifft_of (mk_ndarray [N] l) N [])) =
  mk_ndarray [N] (map (fun z => RtoC (Re z)) (idft l)).
Proof.
  intros Hl. unfold ifft_of. rewrite (transpose_rank1 l Hl).
  cbn [shape data prod_shape fold_right]. rewrite (chunks_one l Hl).
  cbn [flat_map]. rewrite app_nil_r. unfold np_real. cbn [shape data].
  apply transpose_rank1. rewrite length_map, length_idft. exact Hl.
Qed.

Lemma SignalObj_init_freq_ok (a : ndarray C) n s z :
  shape a = S n :: s ->
  (length s <= 1)%nat ->
  z <> 0%Z ->
  SignalObj_init a (PStr "freq") [PInt z] [] =
  Ok (after_freqSignal a (S n) z (ifft_of a (S n) s)
        (entering_setter z "freq")).
Proof.
  intros Hs Hr Hz. unfold SignalObj_init, size_check, ndim. rewrite Hs.
  cbn [rbind length].
  destruct (Nat.ltb_spec 2 (S (length s))) as [H|_]; [lia|].
  rewrite PyTTaObj_init_samplingRate. cbn [rbind domain_or_args1 py_truthy].
  cbn -[timeSignal_set freqSignal_set]. unfold exec.
  rewrite (freqSignal_set_ok _ a Hs (z:=z)); [reflexivity|reflexivity|exact Hz].
Qed.

(** The algebra behind the round trip, in exact arithmetic.  A real buffer
    [x] with [N > 0] samples assigned to [timeSignal] gives
    [freqSignal = DFT(x)], and a fresh [SignalObj] built from those
    coefficients in the ['freq'] domain has [timeSignal = x].  This is a
    fact about real and complex numbers: float64 rounding and overflow are
    not modelled, so it says nothing about the tolerance the program
    achieves on a given buffer. *)
Theorem time_freq_time_round_trip
        (o : SignalObj) (x : list R) (z z' : Z) :
  (0 < length x)%nat ->
  _samplingRate o = PInt z ->
  z <> 0%Z ->
  z' <> 0%Z ->
  exists o1 o2,
    timeSignal_set (real_array [length x] x) o = (o1, Ok tt) /\
    freqSignal o1 = Ok (mk_ndarray [length x] (dft (map RtoC x))) /\
    SignalObj_init (mk_ndarray [length x] (dft (map RtoC x)))
                   (PStr "freq") [PInt z'] [] = Ok o2 /\
    timeSignal o2 = Ok (real_array [length x] x).
Proof.
  intros Hx Hsr Hz Hz'.
  destruct (length x) as [|n] eqn:Hlen; [lia|].
  assert (Hl : length (map RtoC x) = S n) by (rewrite length_map; exact Hlen).
  eexists. eexists.
  split; [apply (@timeSignal_set_ok o (real_array [S n] x) n [] z);
          [reflexivity|exact Hsr|exact Hz]|].
  split.
  { unfold freqSignal, attr, after_timeSignal. cbn [_freqSignal with_freqSignal].
    f_equal. apply (fft_of_rank1 (map RtoC x) Hl). }
  split; [apply (@SignalObj_init_freq_ok _ n []);
          [reflexivity|cbn; lia|exact Hz']|].
  unfold timeSignal, attr, after_freqSignal.
  cbn [_timeSignal with_freqVector with_timeVector with_timeLength
       with_fftDegree with_numSamples with_timeSignal].
  f_equal.
  rewrite (@ifft_of_rank1 (S n) (dft (map RtoC x)))
    by (rewrite length_dft; exact Hl).
  unfold real_array. f_equal.
  rewrite idft_dft by (destruct x; [discriminate Hlen|discriminate]).
  rewrite map_map. apply map_ext. intros r. reflexivity.
Qed.

Lemma time_freq_time_round_trip_witness :
  exists o1 o2,
    timeSignal_set (real_array [3%nat] [1; 2; 3]) (entering_setter 8 "time")
    = (o1, Ok tt) /\
    freqSignal o1 = Ok (mk_ndarray [3%nat] (dft (map RtoC [1; 2; 3]))) /\
    SignalObj_init (mk_ndarray [3%nat] (dft (map RtoC [1; 2; 3])))
                   (PStr "freq") [PInt 8] [] = Ok o2 /\
    timeSignal o2 = Ok (real_array [3%nat] [1; 2; 3]).
Proof.
  apply (@time_freq_time_round_trip (entering_setter 8 "time") [1; 2; 3]
                                    8%Z 8%Z).
  - cbn. lia.
  - reflexivity.
  - lia.
  - lia.
Defined.

(** * Further properties of the setters *)

(** ** The frequency axis *)

Lemma linspace_freq_axis (n : nat) (z : Z) :
  data (np_linspace 0 (IZR (Z.of_nat n - 1) * IZR z / IZR (Z.of_nat n)) n) =
  freq_axis n z.
Proof.
  unfold np_linspace, freq_axis; cbn [data].
  destruct n as [|[|m]].
  - reflexivity.
  - cbn. f_equal. lra.
  - replace (IZR (Z.of_nat (S (S m)) - 1)) with (INR (S m))
      by (rewrite minus_IZR, <- INR_IZR_INZ, (S_INR (S m)); ring).
    replace (IZR (Z.of_nat (S (S m)))) with (INR (S (S m)))
      by apply INR_IZR_INZ.
    rewrite (seq_S (S m)), map_app. cbn [Nat.add map].
    assert (Hm : INR (S m) <> 0) by (apply not_0_INR; discriminate).
    assert (Hm' : INR (S (S m)) <> 0) by (apply not_0_INR; discriminate).
    f_equal.
    apply map_ext. intros k.
    replace (S (S m) - 1)%nat with (S m) by lia.
    field. split; assumption.
Qed.

(** X1.  After a buffer with [N > 0] samples is assigned to [timeSignal],
    [freqVector] has shape [(N,)] and holds [k * sr / N], [k = 0 .. N-1]: it
    starts at 0 and stops one bin short of the sampling rate. *)
Theorem freqVector_after_timeSignal
        (o : SignalObj) (a : ndarray C) (n : nat) (s : list nat) (z : Z) :
  shape a = S n :: s ->
  _samplingRate o = PInt z ->
  z <> 0%Z ->
  exists o' fv,
    timeSignal_set a o = (o', Ok tt) /\
    freqVector o' = Ok fv /\
    shape fv = [S n] /\
    data fv = freq_axis (S n) z /\
    length (data fv) = S n /\
    ~ In (IZR z) (data fv).
Proof.
  intros Hs Hsr Hz.
  eexists. eexists. split; [apply (timeSignal_set_ok o a Hs Hsr Hz)|].
  split; [reflexivity|]. split; [reflexivity|].
  cbn [after_timeSignal _freqVector with_freqSignal with_freqVector data].
  rewrite linspace_freq_axis.
  split; [reflexivity|].
  split; [unfold freq_axis; rewrite length_map, length_seq; reflexivity|].
  unfold freq_axis. intros Hin. apply in_map_iff in Hin.
  destruct Hin as [k [Hk Hin]]. apply in_seq in Hin.
  assert (Hz' : IZR z <> 0) by (apply not_0_IZR; exact Hz).
  assert (HN : INR (S n) <> 0) by (apply not_0_INR; discriminate).
  assert (E : INR k = INR (S n)).
  { apply (Rmult_eq_reg_r (IZR z / INR (S n))).
    - replace (INR k * (IZR z / INR (S n))) with (INR k * IZR z / INR (S n))
        by (field; exact HN).
      rewrite Hk. field. exact HN.
    - intros E. apply Hz'.
      apply (Rmult_eq_reg_r (/ INR (S n)));
        [|apply Rinv_neq_0_compat; exact HN].
      unfold Rdiv in E. rewrite E. ring. }
  apply INR_eq in E. lia.
Qed.

Lemma freqVector_after_timeSignal_witness :
  exists o' fv,
    timeSignal_set (real_array [4%nat] [1; 2; 3; 4]) (entering_setter 8 "time")
    = (o', Ok tt) /\
    freqVector o' = Ok fv /\
    data fv = [0; 2; 4; 6].
Proof.
  destruct (@freqVector_after_timeSignal
              (entering_setter 8 "time") (real_array [4%nat] [1; 2; 3; 4])
              3%nat [] 8%Z)
    as [o' [fv [H1 [H2 [_ [H4 _]]]]]].
  - reflexivity.
  - reflexivity.
  - lia.
  - exists o', fv. split; [exact H1|]. split; [exact H2|].
    rewrite H4. unfold freq_axis. cbn.
    f_equal; [lra|f_equal; [lra|f_equal; [lra|f_equal; lra]]].
Defined.

(** ** When an assignment succeeds *)

Lemma timeSignal_set_success_inv (o o' : SignalObj) (a : ndarray C) :
  timeSignal_set a o = (o', Ok tt) ->
  exists n s z, shape a = S n :: s /\ _samplingRate o = PInt z /\ z <> 0%Z.
Proof.
  unfold timeSignal_set, bind, assign, get, read, lift, timeSignal, attr,
    samplingRate, np_fft.
  cbn [_timeSignal with_timeSignal]. unfold np_len.
  destruct (shape a) as [|n s] eqn:Hs; [discriminate|].
  cbn [_samplingRate with_fftDegree with_numSamples with_timeSignal].
  destruct (_samplingRate o) as [|z|str] eqn:Hsr; unfold py_truediv, py_mul;
    [discriminate| |discriminate].
  destruct (Z.eqb_spec z 0) as [E|E]; [discriminate|].
  cbn [_samplingRate with_timeLength with_timeVector].
  destruct (Z.eqb_spec (Z.of_nat n) 0) as [E0|E0]; [discriminate|].
  destruct n as [|n]; [contradiction E0; reflexivity|].
  intros _. exists n, s, z. repeat split. exact E.
Qed.

Lemma freqSignal_set_success_inv (o o' : SignalObj) (a : ndarray C) :
  freqSignal_set a o = (o', Ok tt) ->
  exists n s z, shape a = S n :: s /\ _samplingRate o = PInt z /\ z <> 0%Z.
Proof.
  unfold freqSignal_set, bind, assign, get, read, lift, freqSignal,
    timeSignal, attr, samplingRate, np_ifft, along_last_axis.
  cbn [_freqSignal with_freqSignal].
  rewrite rev_shape_transpose.
  destruct (shape a) as [|n s] eqn:Hs; [discriminate|].
  destruct n as [|n]; [discriminate|].
  cbn [_timeSignal with_timeSignal]. unfold np_len.
  assert (E : shape (transpose (np_real
                (mk_ndarray (shape (transpose a))
                   (flat_map idft
                      (chunks (prod_shape s) (S n) (data (transpose a)))))))
              = S n :: s).
  { unfold transpose at 1. cbn [shape np_real].
    change (shape (transpose a)) with (rev (shape a)).
    rewrite rev_involutive. exact Hs. }
  rewrite E.
  cbn [_samplingRate with_fftDegree with_numSamples with_timeSignal
       with_freqSignal].
  destruct (_samplingRate o) as [|z|str] eqn:Hsr; unfold py_truediv, py_mul;
    [discriminate| |discriminate].
  destruct (Z.eqb_spec z 0) as [E1|E1]; [discriminate|].
  intros _. exists n, s, z. repeat split. exact E1.
Qed.

(** ** Full recomputation *)

Lemma after_timeSignal_settings a n z F (o o' : SignalObj) :
  same_settings o o' ->
  after_timeSignal a n z F o = after_timeSignal a n z F o'.
Proof.
  intros [H1 [H2 [H3 [H4 H5]]]].
  destruct o, o'. cbn [_samplingRate _freqMin _freqMax _comment _domain] in *.
  subst. reflexivity.
Qed.

Lemma after_freqSignal_settings a n z t (o o' : SignalObj) :
  same_settings o o' ->
  after_freqSignal a n z t o = after_freqSignal a n z t o'.
Proof.
  intros [H1 [H2 [H3 [H4 H5]]]].
  destruct o, o'. cbn [_samplingRate _freqMin _freqMax _comment _domain] in *.
  subst. reflexivity.
Qed.

(** X4.  What a successful [timeSignal] assignment leaves depends only on the
    buffer and on what no setter writes: the same buffer assigned to an
    object with the same settings, whatever its buffers and derived fields
    were, gives the same object; in particular assigning the buffer a second
    time changes nothing. *)
Theorem timeSignal_set_recomputes
        (o o' o1 : SignalObj) (a : ndarray C) :
  same_settings o o' ->
  timeSignal_set a o = (o1, Ok tt) ->
  timeSignal_set a o' = (o1, Ok tt) /\
  timeSignal_set a o1 = (o1, Ok tt).
Proof.
  intros Hs H.
  destruct (timeSignal_set_success_inv o a H) as [n [s [z [Hsh [Hsr Hz]]]]].
  rewrite (timeSignal_set_ok o a Hsh Hsr Hz) in H.
  injection H as H. subst o1.
  assert (Hsr' : _samplingRate o' = PInt z)
    by (destruct Hs as [E _]; rewrite <- E; exact Hsr).
  split.
  - rewrite (timeSignal_set_ok o' a Hsh Hsr' Hz).
    rewrite (after_timeSignal_settings _ _ _ _ Hs). reflexivity.
  - rewrite (@timeSignal_set_ok _ a n s z Hsh); [reflexivity|exact Hsr|exact Hz].
Qed.

Lemma timeSignal_set_recomputes_witness :
  exists o1,
    timeSignal_set (real_array [2%nat] [1; 2]) (entering_setter 8 "time")
    = (o1, Ok tt) /\
    timeSignal_set (real_array [2%nat] [1; 2]) o1 = (o1, Ok tt).
Proof.
  eexists.
  assert (H : timeSignal_set (real_array [2%nat] [1; 2])
                             (entering_setter 8 "time")
              = (two_samples, Ok tt)).
  { apply (@timeSignal_set_ok _ _ 1%nat [] 8%Z);
      [reflexivity|reflexivity|lia]. }
  destruct (@timeSignal_set_recomputes
              (entering_setter 8 "time") (entering_setter 8 "time")
              two_samples (real_array [2%nat] [1; 2])) as [_ H2].
  - repeat split.
  - exact H.
  - split; [exact H|exact H2].
Defined.

(** X5.  The same for [freqSignal]. *)
Theorem freqSignal_set_recomputes
        (o o' o1 : SignalObj) (a : ndarray C) :
  same_settings o o' ->
  freqSignal_set a o = (o1, Ok tt) ->
  freqSignal_set a o' = (o1, Ok tt) /\
  freqSignal_set a o1 = (o1, Ok tt).
Proof.
  intros Hs H.
  destruct (freqSignal_set_success_inv o a H) as [n [s [z [Hsh [Hsr Hz]]]]].
  rewrite (freqSignal_set_ok o a Hsh Hsr Hz) in H.
  injection H as H. subst o1.
  assert (Hsr' : _samplingRate o' = PInt z)
    by (destruct Hs as [E _]; rewrite <- E; exact Hsr).
  split.
  - rewrite (freqSignal_set_ok o' a Hsh Hsr' Hz).
    rewrite (after_freqSignal_settings _ _ _ _ Hs). reflexivity.
  - rewrite (@freqSignal_set_ok _ a n s z Hsh); [reflexivity|exact Hsr|exact Hz].
Qed.

Lemma freqSignal_set_recomputes_witness :
  exists o1,
    freqSignal_set (real_array [2%nat] [1; 2]) (entering_setter 8 "freq")
    = (o1, Ok tt) /\
    freqSignal_set (real_array [2%nat] [1; 2]) o1 = (o1, Ok tt).
Proof.
  eexists.
  pose proof (@freqSignal_set_ok (entering_setter 8 "freq")
                (real_array [2%nat] [1; 2]) 1%nat [] 8%Z
                eq_refl eq_refl ltac:(lia)) as H.
  destruct (@freqSignal_set_recomputes
              (entering_setter 8 "freq") (entering_setter 8 "freq")
              _ (real_array [2%nat] [1; 2])
              (conj eq_refl (conj eq_refl (conj eq_refl
                                             (conj eq_refl eq_refl))))
              H) as [_ H2].
  split; [exact H|exact H2].
Defined.

(** ** Shapes *)

Lemma In_item {A} (a : ndarray A) (idx : list nat) (x : A) :
  In x (item a idx) -> In x (data a).
Proof.
  unfold item.
  destruct (nth_error (data a) (offset (shape a) idx)) as [y|] eqn:E.
  - intros [H|[]]. subst y. eapply nth_error_In. exact E.
  - intros [].
Qed.

(** Transposing moves elements, it makes none. *)
Lemma Forall_transpose {A} (P : A -> Prop) (a : ndarray A) :
  Forall P (data a) -> Forall P (data (transpose a)).
Proof.
  intros H. rewrite Forall_forall in *. intros x Hx.
  unfold transpose in Hx. cbn [data] in Hx.
  apply in_flat_map in Hx. destruct Hx as [idx [_ Hx]].
  apply H. eapply In_item. exact Hx.
Qed.

(** X6.  After a successful [timeSignal] assignment the buffer is stored as
    it was given, the spectrum has the shape of the buffer (so both have the
    same number of channels) and [numSamples] is the length of the first
    axis. *)
Theorem timeSignal_set_shapes (o o' : SignalObj) (a : ndarray C) :
  timeSignal_set a o = (o', Ok tt) ->
  exists fs,
    _timeSignal o' = Some a /\
    _freqSignal o' = Some fs /\
    shape fs = shape a /\
    np_len a = Ok (Z.to_nat (match _numSamples o' with
                             | PInt z => z
                             | _ => 0
                             end)) /\
    same_settings o o'.
Proof.
  intros H.
  destruct (timeSignal_set_success_inv o a H) as [n [s [z [Hsh [Hsr Hz]]]]].
  rewrite (timeSignal_set_ok o a Hsh Hsr Hz) in H.
  injection H as H. subst o'.
  eexists. split; [reflexivity|]. split; [reflexivity|].
  split; [apply shape_transpose_transpose|].
  split.
  - unfold np_len. rewrite Hsh.
    cbn [after_timeSignal _numSamples with_freqSignal with_freqVector
         with_timeVector with_timeLength with_fftDegree with_numSamples].
    rewrite Nat2Z.id. reflexivity.
  - repeat split.
Qed.

Lemma timeSignal_set_shapes_witness :
  exists o' fs,
    timeSignal_set (real_array [2; 2]%nat [1; 2; 3; 4])
                   (entering_setter 8 "time") = (o', Ok tt) /\
    _freqSignal o' = Some fs /\
    shape fs = [2; 2]%nat.
Proof.
  pose proof (@timeSignal_set_ok (entering_setter 8 "time")
                (real_array [2; 2]%nat [1; 2; 3; 4]) 1%nat [2%nat] 8%Z
                eq_refl eq_refl ltac:(lia)) as H.
  destruct (timeSignal_set_shapes _ _ H) as [fs [_ [H2 [H3 _]]]].
  eexists. exists fs. split; [exact H|]. split; [exact H2|exact H3].
Defined.

(** X7.  After a successful [freqSignal] assignment the spectrum is stored as
    it was given, the samples have its shape, and every sample is real: the
    imaginary part of the inverse transform is dropped. *)
Theorem freqSignal_set_shapes (o o' : SignalObj) (a : ndarray C) :
  freqSignal_set a o = (o', Ok tt) ->
  exists ts,
    _freqSignal o' = Some a /\
    _timeSignal o' = Some ts /\
    shape ts = shape a /\
    Forall (fun c => Im c = 0) (data ts) /\
    same_settings o o'.
Proof.
  intros H.
  destruct (freqSignal_set_success_inv o a H) as [n [s [z [Hsh [Hsr Hz]]]]].
  rewrite (freqSignal_set_ok o a Hsh Hsr Hz) in H.
  injection H as H. subst o'.
  eexists. split; [reflexivity|]. split; [reflexivity|].
  split.
  { unfold transpose at 1. cbn [shape np_real ifft_of].
    change (shape (transpose a)) with (rev (shape a)).
    apply rev_involutive. }
  split.
  - apply Forall_transpose. unfold np_real. cbn [data].
    apply Forall_forall. intros x Hx. apply in_map_iff in Hx.
    destruct Hx as [c [Hc _]]. subst x. reflexivity.
  - repeat split.
Qed.

Lemma freqSignal_set_shapes_witness :
  exists o' ts,
    freqSignal_set (real_array [2; 2]%nat [1; 2; 3; 4])
                   (entering_setter 8 "freq") = (o', Ok tt) /\
    _timeSignal o' = Some ts /\
    shape ts = [2; 2]%nat /\
    Forall (fun c => Im c = 0) (data ts).
Proof.
  pose proof (@freqSignal_set_ok (entering_setter 8 "freq")
                (real_array [2; 2]%nat [1; 2; 3; 4]) 1%nat [2%nat] 8%Z
                eq_refl eq_refl ltac:(lia)) as H.
  destruct (freqSignal_set_shapes _ _ H) as [ts [_ [H2 [H3 [H4 _]]]]].
  eexists. exists ts. split; [exact H|].
  split; [exact H2|]. split; [exact H3|exact H4].
Defined.

(** ** Edge cases of construction and assignment *)

(** X8.  Assigning a buffer whose first axis is empty to [freqSignal] raises
    [ValueError], from the inverse transform; only the spectrum itself has
    been overwritten then: samples, [numSamples] and both axes are as
    before. *)
Theorem freqSignal_set_empty_ValueError
        (o : SignalObj) (a : ndarray C) (s : list nat) :
  shape a = O :: s ->
  exists o',
    freqSignal_set a o = (o', Raise ValueError) /\
    _freqSignal o' = Some a /\
    _timeSignal o' = _timeSignal o /\
    _numSamples o' = _numSamples o /\
    _fftDegree o' = _fftDegree o /\
    _timeLength o' = _timeLength o /\
    _timeVector o' = _timeVector o /\
    _freqVector o' = _freqVector o.
Proof.
  intros Hs. eexists. split; [apply (freqSignal_set_empty o a Hs)|].
  repeat split.
Qed.

Lemma freqSignal_set_empty_ValueError_witness :
  exists o',
    freqSignal_set (real_array [O] []) two_samples = (o', Raise ValueError) /\
    _timeSignal o' = Some (real_array [2%nat] [1; 2]).
Proof.
  destruct (@freqSignal_set_empty_ValueError
              two_samples (real_array [O] []) [] eq_refl)
    as [o' [H1 [_ [H3 _]]]].
  exists o'. split; [exact H1|]. rewrite H3. reflexivity.
Defined.

(** X9.  [+] and [-] never return: whatever the two operands, both raise. *)
Theorem add_sub_never_return (self : SignalObj) (other : operand) :
  (exists e, add self other = Raise e) /\
  (exists e, sub self other = Raise e).
Proof.
  split; unfold add, sub; apply time_operator_never_returns.
Qed.

(** X10.  Without a sampling rate ([SignalObj(buffer)], or with ['freq'] as
    the domain) construction raises [TypeError]: the duration divides by the
    sampling rate, whose default is [None]. *)
Theorem init_without_samplingRate_raises
        (a : ndarray C) (n : nat) (s : list nat) :
  shape a = S n :: s ->
  (length s <= 1)%nat ->
  SignalObj_init a (PStr "time") [] [] =
  Raise (TypeError "unsupported operand type(s) for /") /\
  SignalObj_init a (PStr "freq") [] [] =
  Raise (TypeError "unsupported operand type(s) for /").
Proof.
  intros Hs Hr. split.
  - unfold SignalObj_init, size_check, ndim. rewrite Hs.
    cbn [rbind length].
    destruct (Nat.ltb_spec 2 (S (length s))) as [H|_]; [lia|].
    cbn -[timeSignal_set freqSignal_set].
    unfold exec, timeSignal_set, bind, assign, get, read, lift, timeSignal,
      attr, samplingRate.
    cbn [_timeSignal with_timeSignal]. unfold np_len. rewrite Hs.
    reflexivity.
  - unfold SignalObj_init, size_check, ndim. rewrite Hs.
    cbn [rbind length].
    destruct (Nat.ltb_spec 2 (S (length s))) as [H|_]; [lia|].
    cbn -[timeSignal_set freqSignal_set].
    unfold exec, freqSignal_set, bind, assign, get, read, lift, freqSignal,
      timeSignal, attr, samplingRate, np_ifft.
    cbn [_freqSignal with_freqSignal].
    rewrite (along_last_axis_transpose idft a Hs).
    cbn [_timeSignal with_timeSignal]. unfold np_len.
    assert (E : shape (transpose (np_real
                  (mk_ndarray (shape (transpose a))
                     (flat_map idft
                        (chunks (prod_shape s) (S n) (data (transpose a)))))))
                = S n :: s).
    { unfold transpose at 1. cbn [shape np_real].
      change (shape (transpose a)) with (rev (shape a)).
      rewrite rev_involutive. exact Hs. }
    rewrite E. reflexivity.
Qed.

Lemma init_without_samplingRate_raises_witness :
  SignalObj_init (real_array [3%nat] [1; 2; 3]) (PStr "time") [] [] =
  Raise (TypeError "unsupported operand type(s) for /").
Proof.
  apply (@init_without_samplingRate_raises
           (real_array [3%nat] [1; 2; 3]) 2%nat []).
  - reflexivity.
  - cbn. lia.
Defined.

(** ** The size parameter *)

Lemma np_log2_pow2 (k : nat) : np_log2 (2 ^ k) = Finite (INR k).
Proof.
  assert (H : (2 ^ k <> 0)%nat) by (apply Nat.pow_nonzero; discriminate).
  unfold np_log2. destruct (2 ^ k)%nat as [|m] eqn:E; [contradiction|].
  rewrite <- E, pow_INR. change (INR 2) with 2.
  rewrite ln_pow by lra. f_equal. field.
  pose proof ln_lt_2 as H2. lra.
Qed.

(** X11.  A buffer of [2^k] samples gets [fftDegree = k], and one sample
    gets 0; the degree is [log2] of the sample count, integral or not. *)
Theorem fftDegree_power_of_two
        (o : SignalObj) (a : ndarray C) (k : nat) (s : list nat) (z : Z) :
  shape a = (2 ^ k)%nat :: s ->
  _samplingRate o = PInt z ->
  z <> 0%Z ->
  exists o',
    timeSignal_set a o = (o', Ok tt) /\
    _fftDegree o' = Float (Finite (INR k)) /\
    _numSamples o' = PInt (2 ^ Z.of_nat k).
Proof.
  intros Hs Hsr Hz.
  assert (H : (2 ^ k <> 0)%nat) by (apply Nat.pow_nonzero; discriminate).
  destruct (2 ^ k)%nat as [|m] eqn:E; [contradiction|].
  eexists. split; [apply (timeSignal_set_ok o a Hs Hsr Hz)|].
  cbn [after_timeSignal _fftDegree _numSamples with_freqSignal
       with_freqVector with_timeVector with_timeLength with_fftDegree
       with_numSamples].
  rewrite <- E. split.
  - rewrite np_log2_pow2. reflexivity.
  - f_equal. rewrite Nat2Z.inj_pow. reflexivity.
Qed.

Lemma fftDegree_power_of_two_witness :
  exists o',
    timeSignal_set (real_array [4%nat] [1; 2; 3; 4]) (entering_setter 8 "time")
    = (o', Ok tt) /\
    _fftDegree o' = Float (Finite 2).
Proof.
  destruct (@fftDegree_power_of_two
              (entering_setter 8 "time") (real_array [4%nat] [1; 2; 3; 4])
              2%nat [] 8%Z eq_refl eq_refl ltac:(lia))
    as [o' [H1 [H2 _]]].
  exists o'. split; [exact H1|]. rewrite H2. cbn. do 2 f_equal; lra.
Defined.

(** ** The frequency axis the frequency setter derives *)

(** X12.  A successful [freqSignal] assignment of [N] samples derives the
    frequency axis a [timeSignal] assignment derives, [k * sr / N] for
    [k = 0 .. N-1], with [numSamples = N] and [timeLength = N / sr]. *)
Theorem freqSignal_set_freqVector
        (o : SignalObj) (a : ndarray C) (n : nat) (s : list nat) (z : Z) :
  shape a = S n :: s ->
  _samplingRate o = PInt z ->
  z <> 0%Z ->
  exists o',
    freqSignal_set a o = (o', Ok tt) /\
    freqVector o' = Ok (mk_ndarray [S n] (freq_axis (S n) z)) /\
    _numSamples o' = PInt (Z.of_nat (S n)) /\
    _timeLength o' = Float (Finite (INR (S n) / IZR z)).
Proof.
  intros Hs Hsr Hz.
  eexists. split; [apply (freqSignal_set_ok o a Hs Hsr Hz)|].
  unfold freqVector, attr.
  cbn [after_freqSignal _freqVector _timeLength _numSamples with_freqSignal
       with_freqVector with_timeVector with_timeLength with_fftDegree
       with_numSamples].
  split.
  - f_equal. rewrite mult_IZR.
    pose proof (linspace_freq_axis (S n) z) as H.
    unfold np_linspace in *. cbn [data] in H. rewrite H. reflexivity.
  - split; [reflexivity|]. rewrite INR_IZR_INZ. reflexivity.
Qed.

Lemma freqSignal_set_freqVector_witness :
  exists o',
    freqSignal_set (real_array [4%nat] [1; 2; 3; 4]) (entering_setter 8 "freq")
    = (o', Ok tt) /\
    freqVector o' = Ok (mk_ndarray [4%nat] (freq_axis 4 8)).
Proof.
  destruct (@freqSignal_set_freqVector
              (entering_setter 8 "freq") (real_array [4%nat] [1; 2; 3; 4])
              3%nat [] 8%Z eq_refl eq_refl ltac:(lia))
    as [o' [H1 [H2 _]]].
  exists o'. split; [exact H1|exact H2].
Defined.

(** ** What the division reads of its operands *)

(** X13.  The division reads nothing of its right operand but the two
    buffers: two right operands with the same [timeSignal] and [freqSignal]
    give the same outcome, whatever their sampling rates (the rates of the
    operands are never compared). *)
Theorem truediv_ignores_right_settings (self other other' : SignalObj) :
  _timeSignal other = _timeSignal other' ->
  _freqSignal other = _freqSignal other' ->
  truediv self (OSignal other) = truediv self (OSignal other').
Proof.
  intros Ht Hf.
  assert (E1 : size_check other None = size_check other' None)
    by (unfold size_check, timeSignal; rewrite Ht; reflexivity).
  assert (E2 : num_channels other = num_channels other')
    by (unfold num_channels, timeSignal; rewrite Ht; reflexivity).
  assert (E3 : freqSignal other = freqSignal other')
    by (unfold freqSignal; rewrite Hf; reflexivity).
  unfold truediv, outer_product_loop. rewrite E1, E2, E3. reflexivity.
Qed.

Lemma truediv_ignores_right_settings_witness :
  truediv two_samples (OSignal two_samples) =
  truediv two_samples
          (OSignal (after_timeSignal (real_array [2%nat] [1; 2]) 2 48000
                      (mk_ndarray (shape (transpose (real_array [2%nat] [1; 2])))
                         (flat_map dft
                            (chunks 1 2
                               (data (transpose (real_array [2%nat] [1; 2]))))))
                      (entering_setter 48000 "time"))).
Proof.
  apply truediv_ignores_right_settings; reflexivity.
Defined.

(** ** Division of single-channel signals *)

Lemma zip_by_index {A} (f : A -> A -> A) (la lb : list A) (a : nat) :
  length la = length lb ->
  flat_map (fun i =>
              match match nth_error la (i - a) with
                    | Some x => [x]
                    | None => []
                    end,
                    match nth_error lb (i - a) with
                    | Some y => [y]
                    | None => []
                    end
              with
              | [x], [y] => [f x y]
              | _, _ => []
              end) (seq a (length la)) =
  map (fun xy => f (fst xy) (snd xy)) (combine la lb).
Proof.
  revert lb a. induction la as [|x la IH]; intros lb a Hl; [reflexivity|].
  destruct lb as [|y lb]; [discriminate Hl|].
  cbn [length seq flat_map combine map fst snd].
  rewrite Nat.sub_diag. cbn [nth_error app]. f_equal.
  rewrite <- (IH lb (S a)) by (cbn in Hl; lia).
  rewrite !flat_map_concat_map. f_equal.
  apply map_ext_in. intros i Hi. apply in_seq in Hi.
  replace (i - a)%nat with (S (i - S a)) by lia. reflexivity.
Qed.

(** An operation on two one-dimensional arrays of the same length works
    element by element. *)
Lemma np_binop_rank1 {A} (f : A -> A -> A) (a b : ndarray A) (N : nat) :
  shape a = [N] -> shape b = [N] ->
  length (data a) = N -> length (data b) = N ->
  np_binop f a b =
  Ok (mk_ndarray [N]
        (map (fun xy => f (fst xy) (snd xy)) (combine (data a) (data b)))).
Proof.
  intros Ha Hb Hla Hlb. unfold np_binop.
  rewrite Ha, Hb, broadcast_shapes_same. f_equal. f_equal.
  cbn [indices].
  rewrite (flat_map_ext (fun i => map (cons i) [[]]) (fun i => [[i]]))
    by reflexivity.
  rewrite flat_map_singletons.
  rewrite <- (zip_by_index f (data a) (data b) 0) by congruence.
  rewrite Hla. rewrite !flat_map_concat_map. f_equal.
  apply map_ext_in. intros i Hi. apply in_seq in Hi.
  unfold item, bidx, offset. rewrite Ha, Hb. cbn.
  rewrite Nat.sub_0_r.
  destruct (Nat.eqb_spec N 1) as [E|E].
  - replace i with O by lia. reflexivity.
  - reflexivity.
Qed.

Lemma truediv_rank1_ok
      (self other : SignalObj) (z : Z) (N : nat) (ta fa tb fb : ndarray C) :
  _samplingRate self = PInt z ->
  z <> 0%Z ->
  _timeSignal self = Some ta -> shape ta = [S N] ->
  _freqSignal self = Some fa -> shape fa = [S N] ->
  length (data fa) = S N ->
  _timeSignal other = Some tb -> shape tb = [S N] ->
  _freqSignal other = Some fb -> shape fb = [S N] ->
  length (data fb) = S N ->
  truediv self (OSignal other) =
  Ok (after_freqSignal
        (mk_ndarray [S N]
           (map (fun xy => Cdiv (fst xy) (snd xy))
                (combine (data fa) (data fb))))
        (S N) z
        (ifft_of (mk_ndarray [S N]
                    (map (fun xy => Cdiv (fst xy) (snd xy))
                         (combine (data fa) (data fb))))
                 (S N) [])
        (with_domain (PStr "freq") (default_result z))).
Proof.
  intros Hsr Hz Hta Hsta Hfa Hsfa Hlfa Htb Hstb Hfb Hsfb Hlfb.
  unfold truediv. rewrite (new_result_eq self Hsr Hz). cbn [rbind].
  rewrite (size_check_self self Hta Hsta).
  cbn [rbind length Nat.ltb Nat.leb].
  rewrite (size_check_self other Htb Hstb).
  cbn [rbind length Nat.ltb Nat.leb].
  unfold freqSignal, attr. rewrite Hfa, Hfb. cbn [rbind].
  unfold np_divide.
  rewrite (np_binop_rank1 Cdiv fa fb Hsfa Hsfb Hlfa Hlfb). cbn [rbind].
  unfold exec.
  rewrite (@freqSignal_set_ok
             (with_domain (PStr "freq") (default_result z))
             (mk_ndarray [S N]
                (map (fun xy => Cdiv (fst xy) (snd xy))
                     (combine (data fa) (data fb))))
             N [] z);
    [reflexivity|reflexivity|reflexivity|exact Hz].
Qed.

Lemma two_samples_freqSignal :
  _freqSignal two_samples = Some (mk_ndarray [2%nat] (dft (map RtoC [1; 2]))).
Proof.
  unfold two_samples, after_timeSignal. cbn [_freqSignal with_freqSignal].
  f_equal; apply (@fft_of_rank1 2 (map RtoC [1; 2]) eq_refl).
Qed.

Lemma truediv_two_samples :
  exists r, truediv two_samples (OSignal two_samples) = Ok r.
Proof.
  eexists.
  apply (@truediv_rank1_ok two_samples two_samples 8%Z 1%nat
           (real_array [2%nat] [1; 2])
           (mk_ndarray [2%nat] (dft (map RtoC [1; 2])))
           (real_array [2%nat] [1; 2])
           (mk_ndarray [2%nat] (dft (map RtoC [1; 2]))));
    try reflexivity; try lia; try exact two_samples_freqSignal;
    cbn [data]; rewrite length_dft; reflexivity.
Qed.

(** The spectrum of the two-sample signal [[1, 2]]. *)
Lemma twiddle_zero_sample (sign : R) (N k : nat) :
  twiddle sign N k 0 = RtoC 1.
Proof.
  unfold twiddle. cbn [INR].
  replace (sign * 2 * PI * INR k * 0 / INR N) with 0 by (unfold Rdiv; ring).
  apply Cexp_0.
Qed.

Lemma twiddle_zero_bin (sign : R) (N n : nat) :
  twiddle sign N 0 n = RtoC 1.
Proof.
  unfold twiddle. cbn [INR].
  replace (sign * 2 * PI * 0 * INR n / INR N) with 0 by (unfold Rdiv; ring).
  apply Cexp_0.
Qed.

Lemma twiddle_half_turn : twiddle (-1) 2 1 1 = RtoC (-1).
Proof.
  unfold twiddle.
  replace (-1 * 2 * PI * INR 1 * INR 1 / INR 2) with (- PI)
    by (cbn [INR]; field).
  rewrite Cexp_neg, cos_PI, sin_PI. unfold RtoC. f_equal. ring.
Qed.

Lemma dft_one_two : dft (map RtoC [1; 2]) = [RtoC 3; RtoC (-1)].
Proof.
  unfold dft, dft_coeff. cbn [map length seq combine Csum fst snd].
  rewrite !twiddle_zero_sample, twiddle_zero_bin, twiddle_half_turn.
  f_equal; [Cring|f_equal; Cring].
Qed.

Lemma dft_one_two_nonzero :
  Forall (fun c => c <> RtoC 0) (dft (map RtoC [1; 2])).
Proof.
  rewrite dft_one_two.
  repeat constructor; intros E; unfold RtoC in E; injection E as E; lra.
Qed.

(** X14.  Two single-channel signals with the same number [N >= 1] of
    samples, no coefficient of the right operand's spectrum being zero: the
    division returns a single-channel signal whose spectrum is the
    element-wise quotient of the two spectra and whose samples are the real
    part of its inverse transform; its domain is ['freq'] and its sampling
    rate is the left operand's.  (Where a coefficient of the divisor is
    zero NumPy stores [inf] or [nan], which the arrays here cannot hold;
    the statement is about the other case only.) *)
Theorem truediv_single_channel
        (self other : SignalObj) (z : Z) (N : nat)
        (ta fa tb fb : ndarray C) :
  _samplingRate self = PInt z ->
  z <> 0%Z ->
  _timeSignal self = Some ta -> shape ta = [S N] ->
  _freqSignal self = Some fa -> shape fa = [S N] ->
  length (data fa) = S N ->
  _timeSignal other = Some tb -> shape tb = [S N] ->
  _freqSignal other = Some fb -> shape fb = [S N] ->
  length (data fb) = S N ->
  Forall (fun c => c <> RtoC 0) (data fb) ->
  exists r,
    truediv self (OSignal other) = Ok r /\
    freqSignal r =
    Ok (mk_ndarray [S N]
          (map (fun xy => Cdiv (fst xy) (snd xy))
               (combine (data fa) (data fb)))) /\
    timeSignal r =
    Ok (mk_ndarray [S N]
          (map (fun c => RtoC (Re c))
               (idft (map (fun xy => Cdiv (fst xy) (snd xy))
                          (combine (data fa) (data fb)))))) /\
    _samplingRate r = PInt z /\
    _domain r = PStr "freq".
Proof.
  intros Hsr Hz Hta Hsta Hfa Hsfa Hlfa Htb Hstb Hfb Hsfb Hlfb _.
  set (q := map (fun xy => Cdiv (fst xy) (snd xy))
                (combine (data fa) (data fb))).
  assert (Hlq : length q = S N).
  { unfold q. rewrite length_map, length_combine, Hlfa, Hlfb.
    apply Nat.min_id. }
  eexists. split.
  - apply (truediv_rank1_ok self other Hsr Hz Hta Hsta Hfa Hsfa Hlfa
                            Htb Hstb Hfb Hsfb Hlfb).
  - fold q. split; [reflexivity|].
    split; [|split; reflexivity].
    unfold timeSignal, attr.
    cbn [after_freqSignal _timeSignal with_freqVector with_timeVector
         with_timeLength with_fftDegree with_numSamples with_timeSignal].
    f_equal. apply (ifft_of_rank1 q Hlq).
Qed.

Lemma truediv_single_channel_witness :
  exists r,
    truediv two_samples (OSignal two_samples) = Ok r /\
    freqSignal r =
    Ok (mk_ndarray [2%nat]
          (map (fun xy => Cdiv (fst xy) (snd xy))
               (combine (dft (map RtoC [1; 2])) (dft (map RtoC [1; 2]))))) /\
    _samplingRate r = PInt 8 /\
    _domain r = PStr "freq".
Proof.
  destruct (@truediv_single_channel
              two_samples two_samples 8%Z 1%nat
              (real_array [2%nat] [1; 2])
              (mk_ndarray [2%nat] (dft (map RtoC [1; 2])))
              (real_array [2%nat] [1; 2])
              (mk_ndarray [2%nat] (dft (map RtoC [1; 2]))))
    as [r [H1 [H2 [_ [H4 H5]]]]].
  - reflexivity.
  - lia.
  - reflexivity.
  - reflexivity.
  - exact two_samples_freqSignal.
  - reflexivity.
  - cbn [data]. rewrite length_dft. reflexivity.
  - reflexivity.
  - reflexivity.
  - exact two_samples_freqSignal.
  - reflexivity.
  - cbn [data]. rewrite length_dft. reflexivity.
  - cbn [data]. exact dft_one_two_nonzero.
  - exists r. split; [exact H1|]. split; [exact H2|].
    split; [exact H4|exact H5].
Defined.

(** X15.  [self] single-channel and [other] with [m >= 1] channels, both of
    [N >= 1] samples: the loop runs over [range(self.num_channels())], that
    is once, so the division returns a single-channel signal, the quotient
    of [self] by the first channel of [other]; the other channels are not
    read. *)
Theorem truediv_single_by_multi_uses_first_channel
        (self other : SignalObj) (z : Z) (N m : nat)
        (ta fa tb fb : ndarray C) :
  _samplingRate self = PInt z ->
  z <> 0%Z ->
  _timeSignal self = Some ta -> shape ta = [S N] ->
  _freqSignal self = Some fa -> shape fa = [S N] ->
  _timeSignal other = Some tb -> shape tb = [S N; S m] ->
  _freqSignal other = Some fb -> shape fb = [S N; S m] ->
  exists b q r,
    getitem_col fb 0 = Ok b /\
    np_divide fa b = Ok q /\
    truediv self (OSignal other) = Ok r /\
    freqSignal r = Ok q /\
    num_channels r = Ok 1%nat /\
    num_channels other = Ok (S m).
Proof.
  intros Hsr Hz Hta Hsta Hfa Hsfa Htb Hstb Hfb Hsfb.
  destruct (@getitem_col_ok _ fb (S N) (S m) 0 Hsfb ltac:(lia))
    as [b [Hb Hsb]].
  destruct (@np_binop_same _ Cdiv fa b (S N) Hsfa Hsb) as [q [Hq Hsq]].
  exists b, q. eexists.
  split; [exact Hb|]. split; [exact Hq|].
  split.
  - unfold truediv. rewrite (new_result_eq self Hsr Hz). cbn [rbind].
    rewrite (size_check_self self Hta Hsta).
    cbn [rbind length Nat.ltb Nat.leb].
    rewrite (size_check_self other Htb Hstb).
    cbn [rbind length Nat.ltb Nat.leb].
    rewrite (num_channels_rank1 self Hta Hsta). cbn [rbind seq for_range].
    unfold freqSignal, attr. rewrite Hfa, Hfb. cbn [rbind].
    rewrite Hb. cbn [rbind]. unfold np_divide in *. rewrite Hq. cbn [rbind].
    unfold exec.
    rewrite (@freqSignal_set_ok _ q N [] z Hsq); [reflexivity|reflexivity|exact Hz].
  - split; [reflexivity|].
    pose proof (shape_after_freqSignal_time q (S N) z []
                  (with_domain (PStr "freq") (default_result z))) as Hsh.
    rewrite Hsq in Hsh.
    destruct (_timeSignal
                (after_freqSignal q (S N) z (ifft_of q (S N) [])
                   (with_domain (PStr "freq") (default_result z))))
      as [ts|] eqn:Hts; [|discriminate Hsh].
    cbn in Hsh. injection Hsh as Hsh.
    split; [apply (num_channels_rank1 _ Hts Hsh)|].
    apply (num_channels_rank2 other Htb Hstb).
Qed.

Lemma truediv_single_by_multi_uses_first_channel_witness :
  exists B r,
    SignalObj_init (real_array [2; 2]%nat [1; 2; 3; 4]) (PStr "time")
                   [PInt 8] [] = Ok B /\
    truediv two_samples (OSignal B) = Ok r /\
    num_channels B = Ok 2%nat /\
    num_channels r = Ok 1%nat.
Proof.
  pose proof (@SignalObj_init_time_ok
                (real_array [2; 2]%nat [1; 2; 3; 4]) 1%nat [2%nat] 8%Z
                eq_refl) as HB.
  eexists.
  destruct (@truediv_single_by_multi_uses_first_channel
              two_samples _ 8%Z 1%nat 1%nat _ _ _ _
              eq_refl ltac:(lia) eq_refl eq_refl eq_refl eq_refl
              (eq_refl : _timeSignal
                           (after_timeSignal
                              (real_array [2; 2]%nat [1; 2; 3; 4]) 2 8
                              (mk_ndarray
                                 (shape (transpose
                                           (real_array [2; 2]%nat [1; 2; 3; 4])))
                                 (flat_map dft
                                    (chunks (prod_shape [2%nat]) 2
                                       (data (transpose
                                                (real_array [2; 2]%nat
                                                   [1; 2; 3; 4]))))))
                              (entering_setter 8 "time"))
                         = Some (real_array [2; 2]%nat [1; 2; 3; 4]))
              eq_refl eq_refl eq_refl)
    as [b [q [r [_ [_ [Hr [_ [Hc HcB]]]]]]]].
  exists r.
  split; [apply HB; [cbn; lia|lia]|].
  split; [exact Hr|]. split; [exact HcB|exact Hc].
Defined.

(** ** The settings of a quotient *)

Lemma new_result_inv (self r0 : SignalObj) :
  new_result self = Ok r0 ->
  exists z, _samplingRate self = PInt z /\ z <> 0%Z /\ r0 = default_result z.
Proof.
  unfold new_result, SignalObj_init, samplingRate.
  cbn -[timeSignal_set]. unfold exec.
  destruct (timeSignal_set default_signalArray
              (with_domain (PStr "time")
                 (mk_SignalObj (_samplingRate self) (Given PNone)
                    (Given PNone) PNone PNone PNone (PStr "No comments.")
                    PNone None None None None)))
    as [o' [[]|e]] eqn:E; [|discriminate].
  intros H. injection H as H. subst o'.
  destruct (timeSignal_set_success_inv _ _ E) as [n [s [z [Hs [Hsr Hz]]]]].
  cbn in Hsr. exists z. split; [exact Hsr|]. split; [exact Hz|].
  rewrite Hsr in E.
  rewrite (timeSignal_set_ok _ default_signalArray (n:=0) (s:=[]) (z:=z))
    in E; [|reflexivity|reflexivity|exact Hz].
  injection E as E. symmetry. exact E.
Qed.

Lemma exec_freqSignal_set_settings (q : ndarray C) (r r' : SignalObj) :
  exec (freqSignal_set q) r = Ok r' -> same_settings r r'.
Proof.
  unfold exec.
  destruct (freqSignal_set q r) as [o' [[]|e]] eqn:E; [|discriminate].
  intros H. injection H as H. subst o'.
  destruct (freqSignal_set_success_inv _ _ E) as [n [s [z [Hs [Hsr Hz]]]]].
  rewrite (freqSignal_set_ok r q Hs Hsr Hz) in E.
  injection E as E. subst r'. repeat split.
Qed.

Lemma for_range_invariant {S} (P : S -> Prop) (body : nat -> S -> res S)
      (l : list nat) (s s' : S) :
  (forall x t t', body x t = Ok t' -> P t -> P t') ->
  P s ->
  for_range body l s = Ok s' ->
  P s'.
Proof.
  intros Hb. revert s. induction l as [|x l IH]; intros s Hs H.
  - cbn in H. injection H as H. subst s'. exact Hs.
  - cbn [for_range] in H. destruct (body x s) as [t|e] eqn:E; [|discriminate].
    cbn [rbind] in H. apply (IH t); [|exact H].
    apply (Hb x s t E Hs).
Qed.

Lemma rbind_Ok {A B} (r : res A) (k : A -> res B) (b : B) :
  rbind r k = Ok b -> exists a, r = Ok a /\ k a = Ok b.
Proof.
  destruct r as [a|e]; [|discriminate].
  intros H. exists a. split; [reflexivity|exact H].
Qed.

(** X16.  Whenever the division returns a signal, its sampling rate is the
    left operand's (a nonzero int), its domain is ['freq'], and the other
    settings are the constructor's defaults; nothing of the right operand's
    settings is copied. *)
Theorem truediv_result_settings (self r : SignalObj) (other : operand) :
  truediv self other = Ok r ->
  _samplingRate r = _samplingRate self /\
  _domain r = PStr "freq" /\
  _comment r = PStr "No comments." /\
  _freqMin r = PNone /\
  _freqMax r = PNone.
Proof.
  destruct other as [other|v]; [|discriminate].
  unfold truediv. intros H.
  apply rbind_Ok in H. destruct H as [r0 [H0 H]].
  destruct (new_result_inv self H0) as [z [Hsr [Hz Hr0]]]. subst r0.
  set (P := fun t : SignalObj =>
              _samplingRate t = PInt z /\
              _domain t = PStr "freq" /\
              _comment t = PStr "No comments." /\
              _freqMin t = PNone /\
              _freqMax t = PNone).
  assert (P0 : P (with_domain (PStr "freq") (default_result z)))
    by (repeat split).
  assert (Hset : forall q t t', exec (freqSignal_set q) t = Ok t' ->
                                P t -> P t').
  { intros q t t' E [P1 [P2 [P3 [P4 P5]]]].
    destruct (exec_freqSignal_set_settings _ _ E) as [E1 [E2 [E3 [E4 E5]]]].
    unfold P. rewrite <- E1, <- E2, <- E3, <- E4, <- E5. repeat split;
      assumption. }
  assert (Goal : P r); [|rewrite Hsr; exact Goal].
  apply rbind_Ok in H. destruct H as [ra [_ H]].
  destruct (1 <? ra)%nat.
  - apply rbind_Ok in H. destruct H as [rb [_ H]].
    destruct (1 <? rb)%nat.
    + unfold outer_product_loop in H.
      apply rbind_Ok in H. destruct H as [na [_ H]].
      apply rbind_Ok in H. destruct H as [st [H Hst]].
      injection Hst as Hst. subst r.
      apply (@for_range_invariant loop_state (fun st => P (fst (fst st)))
               _ _ _ _) with (3 := H); [|exact P0].
      intros x t t' Hb Pt.
      apply rbind_Ok in Hb. destruct Hb as [nb [_ Hb]].
      apply rbind_Ok in Hb. destruct Hb as [st' [Hin Hb]].
      assert (Pst' : P (fst (fst st'))).
      { apply (@for_range_invariant loop_state (fun st => P (fst (fst st)))
                 _ _ _ _) with (3 := Hin); [|exact Pt].
        intros y u u' Hu Pu. destruct u as [[res i] cb].
        apply rbind_Ok in Hu. destruct Hu as [fa [_ Hu]].
        apply rbind_Ok in Hu. destruct Hu as [a [_ Hu]].
        apply rbind_Ok in Hu. destruct Hu as [fb [_ Hu]].
        apply rbind_Ok in Hu. destruct Hu as [b [_ Hu]].
        apply rbind_Ok in Hu. destruct Hu as [q [_ Hu]].
        apply rbind_Ok in Hu. destruct Hu as [fr [_ Hu]].
        apply rbind_Ok in Hu. destruct Hu as [fr' [_ Hu]].
        injection Hu as Hu. subst u'. exact Pu. }
      destruct st' as [[res i] cb]. destruct cb as [c|]; [|discriminate].
      injection Hb as Hb. subst t'. exact Pst'.
    + apply rbind_Ok in H. destruct H as [na [_ H]].
      apply (for_range_invariant P _ _ (with_domain (PStr "freq")
                                                    (default_result z)))
        with (3 := H); [|exact P0].
      intros x t t' Hb Pt.
      apply rbind_Ok in Hb. destruct Hb as [fa [_ Hb]].
      apply rbind_Ok in Hb. destruct Hb as [a [_ Hb]].
      apply rbind_Ok in Hb. destruct Hb as [fb [_ Hb]].
      apply rbind_Ok in Hb. destruct Hb as [q [_ Hb]].
      apply (Hset q t t' Hb Pt).
  - apply rbind_Ok in H. destruct H as [rb [_ H]].
    destruct (1 <? rb)%nat.
    + apply rbind_Ok in H. destruct H as [na [_ H]].
      apply (for_range_invariant P _ _ (with_domain (PStr "freq")
                                                    (default_result z)))
        with (3 := H); [|exact P0].
      intros x t t' Hb Pt.
      apply rbind_Ok in Hb. destruct Hb as [fa [_ Hb]].
      apply rbind_Ok in Hb. destruct Hb as [fb [_ Hb]].
      apply rbind_Ok in Hb. destruct Hb as [b [_ Hb]].
      apply rbind_Ok in Hb. destruct Hb as [q [_ Hb]].
      apply (Hset q t t' Hb Pt).
    + apply rbind_Ok in H. destruct H as [fa [_ H]].
      apply rbind_Ok in H. destruct H as [fb [_ H]].
      apply rbind_Ok in H. destruct H as [q [_ H]].
      apply (Hset q _ _ H P0).
Qed.

Lemma truediv_result_settings_witness :
  exists r,
    truediv two_samples (OSignal two_samples) = Ok r /\
    _samplingRate r = PInt 8 /\
    _domain r = PStr "freq".
Proof.
  destruct truediv_two_samples as [r Hr].
  destruct (truediv_result_settings _ _ Hr) as [H1 [H2 _]].
  exists r. split; [exact Hr|]. split; [exact H1|exact H2].
Defined.

(** ** Two-dimensional buffers: one transform per channel *)

Lemma length_table {A} (n m : nat) (g : nat -> nat -> A) :
  length (table n m g) = (n * m)%nat.
Proof.
  unfold table. induction n as [|n IH]; [reflexivity|].
  rewrite seq_S, flat_map_app, length_app, IH. cbn [Nat.add flat_map].
  rewrite app_nil_r, length_map, length_seq. lia.
Qed.

Lemma nth_error_table {A} (n m : nat) (g : nat -> nat -> A) (i j : nat) :
  (i < n)%nat -> (j < m)%nat ->
  nth_error (table n m g) (i * m + j) = Some (g i j).
Proof.
  induction n as [|n IH]; intros Hi Hj; [lia|].
  unfold table. rewrite seq_S, flat_map_app. fold (table n m g).
  cbn [Nat.add flat_map]. rewrite app_nil_r.
  destruct (Nat.eq_dec i n) as [E|E].
  - subst i. rewrite nth_error_app2 by (rewrite length_table; lia).
    rewrite length_table. replace (n * m + j - n * m)%nat with j by lia.
    rewrite nth_error_map, nth_error_seq.
    destruct (Nat.ltb_spec j m) as [_|H]; [reflexivity|lia].
  - rewrite nth_error_app1 by (rewrite length_table; nia).
    apply IH; lia.
Qed.

Lemma item_table {A} (s : list nat) (n m : nat) (g : nat -> nat -> A)
      (i j : nat) :
  (i < n)%nat -> (j < m)%nat ->
  match nth_error (table n m g) (i * m + j) with
  | Some x => [x]
  | None => []
  end = [g i j].
Proof. intros Hi Hj. rewrite nth_error_table by assumption. reflexivity. Qed.

Lemma flat_map_singleton_map {A B} (h : A -> B) (l : list A) :
  flat_map (fun i => [h i]) l = map h l.
Proof. induction l as [|x l IH]; [reflexivity|]. cbn. rewrite IH. reflexivity. Qed.

Lemma flat_map_assoc {A B D} (f : A -> list B) (g : B -> list D)
      (l : list A) :
  flat_map g (flat_map f l) = flat_map (fun x => flat_map g (f x)) l.
Proof.
  induction l as [|x l IH]; [reflexivity|].
  cbn [flat_map]. rewrite flat_map_app, IH. reflexivity.
Qed.

Lemma flat_map_of_map {A B D} (h : A -> B) (g : B -> list D) (l : list A) :
  flat_map g (map h l) = flat_map (fun x => g (h x)) l.
Proof.
  induction l as [|x l IH]; [reflexivity|].
  cbn [map flat_map]. rewrite IH. reflexivity.
Qed.

(** The buffer of the transpose of an [n] x [m] array, entry by entry. *)
Lemma transpose_data_2d {A} (n m : nat) (l : list A) :
  data (transpose (mk_ndarray [n; m] l)) =
  flat_map (fun j =>
              flat_map (fun i => match nth_error l (i * m + j) with
                                 | Some x => [x]
                                 | None => []
                                 end) (seq 0 n)) (seq 0 m).
Proof.
  unfold transpose. cbn [shape data rev app indices].
  rewrite flat_map_assoc. apply flat_map_ext. intros j.
  rewrite (flat_map_ext (fun i => map (cons i) [[]]) (fun i => [[i]]))
    by reflexivity.
  rewrite flat_map_of_map, flat_map_singletons.
  apply flat_map_ext. intros i. unfold item, offset. cbn.
  reflexivity.
Qed.

Lemma flat_map_ext_in {A B} (f g : A -> list B) (l : list A) :
  (forall x, In x l -> f x = g x) -> flat_map f l = flat_map g l.
Proof.
  intros H. rewrite !flat_map_concat_map. f_equal. apply map_ext_in. exact H.
Qed.

(** The transpose of a well-formed [n] x [m] array is the [m] x [n] table of
    its channels. *)
Lemma transpose_2d_table (n m : nat) (l : list C) :
  length l = (n * m)%nat ->
  data (transpose (mk_ndarray [n; m] l)) =
  table m n (fun j i => nth (i * m + j) l (RtoC 0)).
Proof.
  intros Hl. rewrite transpose_data_2d. unfold table.
  apply flat_map_ext_in. intros j Hj. apply in_seq in Hj.
  rewrite <- flat_map_singleton_map.
  apply flat_map_ext_in. intros i Hi. apply in_seq in Hi.
  rewrite (nth_error_nth' l (RtoC 0)) by (rewrite Hl; nia).
  reflexivity.
Qed.

Lemma firstn_exact {A} (r rest : list A) :
  firstn (length r) (r ++ rest) = r.
Proof. induction r as [|x r IH]; [reflexivity|]. cbn. rewrite IH. reflexivity. Qed.

Lemma skipn_exact {A} (r rest : list A) :
  skipn (length r) (r ++ rest) = rest.
Proof. induction r as [|x r IH]; [reflexivity|]. cbn. exact IH. Qed.

Lemma chunks_rows {A} (n : nat) (g : nat -> nat -> A) (L : list nat) :
  chunks (length L) n (flat_map (fun j => map (g j) (seq 0 n)) L) =
  map (fun j => map (g j) (seq 0 n)) L.
Proof.
  induction L as [|j L IH]; [reflexivity|].
  cbn [length chunks flat_map map].
  assert (Hlen : length (map (g j) (seq 0 n)) = n)
    by (rewrite length_map, length_seq; reflexivity).
  pose proof (firstn_exact (map (g j) (seq 0 n))
                (flat_map (fun j => map (g j) (seq 0 n)) L)) as F.
  pose proof (skipn_exact (map (g j) (seq 0 n))
                (flat_map (fun j => map (g j) (seq 0 n)) L)) as K.
  rewrite Hlen in F, K. rewrite F, K, IH. reflexivity.
Qed.

Lemma firstn1_skipn {A} (k : nat) (l : list A) :
  firstn 1 (skipn k l) =
  match nth_error l k with
  | Some x => [x]
  | None => []
  end.
Proof.
  revert l. induction k as [|k IH]; intros l.
  - destruct l; reflexivity.
  - destruct l as [|x l]; [reflexivity|]. cbn [skipn nth_error]. apply IH.
Qed.

(** A column of an [n] x [m] table. *)
Lemma getitem_col_table {A} (n m c : nat) (H : nat -> nat -> A) :
  (c < m)%nat ->
  getitem_col (mk_ndarray [n; m] (table n m H)) c =
  Ok (mk_ndarray [n] (map (fun i => H i c) (seq 0 n))).
Proof.
  intros Hc. unfold getitem_col. cbn [shape data prod_shape fold_right].
  destruct (Nat.ltb_spec c m) as [_|E]; [|lia].
  f_equal. f_equal. rewrite <- flat_map_singleton_map.
  apply flat_map_ext_in. intros i Hi. apply in_seq in Hi.
  rewrite Nat.mul_1_r, firstn1_skipn.
  rewrite nth_error_table by lia. reflexivity.
Qed.

(** A well-formed buffer is the table of its own entries. *)
Lemma data_as_table (n m : nat) (l : list C) :
  length l = (n * m)%nat ->
  l = table n m (fun i j => nth (i * m + j) l (RtoC 0)).
Proof.
  intros Hl.
  apply (nth_ext _ _ (RtoC 0) (RtoC 0)).
  - rewrite length_table. exact Hl.
  - intros k Hk. rewrite Hl in Hk.
    destruct m as [|m]; [lia|].
    assert (Hi : (k / S m < n)%nat)
      by (apply Nat.Div0.div_lt_upper_bound; lia).
    assert (Hj : (k mod S m < S m)%nat) by (apply Nat.mod_upper_bound; lia).
    assert (Ek : k = (k / S m * S m + k mod S m)%nat).
    { rewrite (Nat.div_mod_eq k (S m)) at 1. lia. }
    rewrite Ek at 2.
    rewrite (nth_error_nth _ _ _
               (@nth_error_table _ n (S m)
                  (fun i j => nth (i * S m + j) l (RtoC 0)) _ _ Hi Hj)).
    rewrite <- Ek. reflexivity.
Qed.

Lemma getitem_col_channel (n m c : nat) (l : list C) :
  length l = (n * m)%nat ->
  (c < m)%nat ->
  getitem_col (mk_ndarray [n; m] l) c = Ok (mk_ndarray [n] (channel l n m c)).
Proof.
  intros Hl Hc. rewrite (data_as_table n m l Hl) at 1.
  rewrite (getitem_col_table n _ Hc). reflexivity.
Qed.

Lemma transpose_table {A} (m n : nat) (G : nat -> nat -> A) :
  transpose (mk_ndarray [m; n] (table m n G)) =
  mk_ndarray [n; m] (table n m (fun i j => G j i)).
Proof.
  assert (E : data (transpose (mk_ndarray [m; n] (table m n G))) =
              table n m (fun i j => G j i)).
  { rewrite transpose_data_2d. unfold table at 2.
    apply flat_map_ext_in. intros i Hi. apply in_seq in Hi.
    rewrite <- flat_map_singleton_map.
    apply flat_map_ext_in. intros j Hj. apply in_seq in Hj.
    rewrite nth_error_table by lia. reflexivity. }
  rewrite <- E. reflexivity.
Qed.

(** Transposing, transforming each row with [f], and transposing back
    transforms each channel with [f]. *)
Lemma transform_2d (f : list C -> list C) (n m : nat) (l : list C) :
  (forall r, length r = n -> length (f r) = n) ->
  length l = (n * m)%nat ->
  transpose
    (mk_ndarray (shape (transpose (mk_ndarray [n; m] l)))
       (flat_map f (chunks (prod_shape [m]) n
                           (data (transpose (mk_ndarray [n; m] l))))))
  = mk_ndarray [n; m]
      (table n m (fun i j => nth i (f (channel l n m j)) (RtoC 0))).
Proof.
  intros Hf Hl.
  rewrite (transpose_2d_table n m l Hl).
  cbn [prod_shape fold_right]. rewrite Nat.mul_1_r.
  unfold table at 1.
  pose proof (chunks_rows n (fun j i => nth (i * m + j) l (RtoC 0))
                          (seq 0 m)) as Hch.
  rewrite length_seq in Hch. cbv beta in Hch. rewrite Hch. clear Hch.
  rewrite flat_map_of_map.
  rewrite (flat_map_ext_in
             (fun j => f (map (fun i => nth (i * m + j) l (RtoC 0)) (seq 0 n)))
             (fun j => map (fun i => nth i (f (channel l n m j)) (RtoC 0))
                           (seq 0 n))).
  2:{ intros j _. fold (channel l n m j).
      assert (Hlen : length (f (channel l n m j)) = n).
      { apply Hf. unfold channel. rewrite length_map, length_seq.
        reflexivity. }
      pose proof (map_nth_seq (RtoC 0) (f (channel l n m j))) as E.
      rewrite Hlen in E. symmetry. exact E. }
  fold (table m n (fun j i => nth i (f (channel l n m j)) (RtoC 0))).
  change (shape (transpose (mk_ndarray [n; m] l))) with [m; n].
  apply transpose_table.
Qed.

Lemma per_channel (f : list C -> list C) (n m c : nat) (l : list C) :
  (forall r, length r = n -> length (f r) = n) ->
  length l = (n * m)%nat ->
  (c < m)%nat ->
  getitem_col
    (transpose
       (mk_ndarray (shape (transpose (mk_ndarray [n; m] l)))
          (flat_map f (chunks (prod_shape [m]) n
                              (data (transpose (mk_ndarray [n; m] l)))))))
    c
  = Ok (mk_ndarray [n] (f (channel l n m c))).
Proof.
  intros Hf Hl Hc.
  rewrite (@transform_2d f n m l Hf Hl).
  rewrite (getitem_col_table n _ Hc). f_equal. f_equal.
  assert (Hlen : length (f (channel l n m c)) = n).
  { apply Hf. unfold channel. rewrite length_map, length_seq. reflexivity. }
  pose proof (map_nth_seq (RtoC 0) (f (channel l n m c))) as E.
  rewrite Hlen in E. exact E.
Qed.

Lemma map_flat_map {A B D} (g : B -> D) (f : A -> list B) (l : list A) :
  map g (flat_map f l) = flat_map (fun x => map g (f x)) l.
Proof.
  induction l as [|x l IH]; [reflexivity|].
  cbn [flat_map]. rewrite map_app, IH. reflexivity.
Qed.

(** X17.  For a buffer of [N >= 1] samples and [m] channels, the spectrum a
    [timeSignal] assignment stores is computed channel by channel, along the
    sample axis: channel [c] of [freqSignal] is the DFT of channel [c] of the
    buffer, whatever the other channels hold. *)
Theorem timeSignal_set_per_channel
        (o : SignalObj) (l : list C) (n m c : nat) (z : Z) :
  length l = (S n * m)%nat ->
  (c < m)%nat ->
  _samplingRate o = PInt z ->
  z <> 0%Z ->
  exists o' fs,
    timeSignal_set (mk_ndarray [S n; m] l) o = (o', Ok tt) /\
    freqSignal o' = Ok fs /\
    getitem_col (mk_ndarray [S n; m] l) c =
    Ok (mk_ndarray [S n] (channel l (S n) m c)) /\
    getitem_col fs c = Ok (mk_ndarray [S n] (dft (channel l (S n) m c))).
Proof.
  intros Hl Hc Hsr Hz.
  eexists. eexists.
  split; [apply (@timeSignal_set_ok o (mk_ndarray [S n; m] l) n [m] z);
          [reflexivity|exact Hsr|exact Hz]|].
  split; [reflexivity|].
  split; [apply (@getitem_col_channel (S n) m c l Hl Hc)|].
  apply (@per_channel dft (S n) m c l); [|exact Hl|exact Hc].
  intros r Hr. rewrite length_dft. exact Hr.
Qed.

Lemma timeSignal_set_per_channel_witness :
  exists o' fs,
    timeSignal_set (real_array [2; 2]%nat [1; 2; 3; 4])
                   (entering_setter 8 "time") = (o', Ok tt) /\
    freqSignal o' = Ok fs /\
    getitem_col fs 1 =
    Ok (mk_ndarray [2%nat] (dft (channel (map RtoC [1; 2; 3; 4]) 2 2 1))).
Proof.
  destruct (@timeSignal_set_per_channel
              (entering_setter 8 "time") (map RtoC [1; 2; 3; 4])
              1%nat 2%nat 1%nat 8%Z)
    as [o' [fs [H1 [H2 [_ H4]]]]].
  - reflexivity.
  - lia.
  - reflexivity.
  - lia.
  - exists o', fs. split; [exact H1|]. split; [exact H2|exact H4].
Defined.

(** X18.  Likewise for a [freqSignal] assignment: channel [c] of the samples
    it stores is the real part of the inverse DFT of channel [c] of the
    spectrum. *)
Theorem freqSignal_set_per_channel
        (o : SignalObj) (l : list C) (n m c : nat) (z : Z) :
  length l = (S n * m)%nat ->
  (c < m)%nat ->
  _samplingRate o = PInt z ->
  z <> 0%Z ->
  exists o' ts,
    freqSignal_set (mk_ndarray [S n; m] l) o = (o', Ok tt) /\
    timeSignal o' = Ok ts /\
    getitem_col ts c =
    Ok (mk_ndarray [S n]
          (map (fun x => RtoC (Re x)) (idft (channel l (S n) m c)))).
Proof.
  intros Hl Hc Hsr Hz.
  eexists. eexists.
  split; [apply (@freqSignal_set_ok o (mk_ndarray [S n; m] l) n [m] z);
          [reflexivity|exact Hsr|exact Hz]|].
  split; [reflexivity|].
  unfold ifft_of, np_real. cbn [shape data]. rewrite map_flat_map.
  apply (@per_channel (fun r => map (fun x => RtoC (Re x)) (idft r))
                      (S n) m c l);
    [|exact Hl|exact Hc].
  intros r Hr. rewrite length_map, length_idft. exact Hr.
Qed.

Lemma freqSignal_set_per_channel_witness :
  exists o' ts,
    freqSignal_set (real_array [2; 2]%nat [1; 2; 3; 4])
                   (entering_setter 8 "freq") = (o', Ok tt) /\
    timeSignal o' = Ok ts /\
    getitem_col ts 0 =
    Ok (mk_ndarray [2%nat]
          (map (fun x => RtoC (Re x))
               (idft (channel (map RtoC [1; 2; 3; 4]) 2 2 0)))).
Proof.
  destruct (@freqSignal_set_per_channel
              (entering_setter 8 "freq") (map RtoC [1; 2; 3; 4])
              1%nat 2%nat 0%nat 8%Z)
    as [o' [ts [H1 [H2 H3]]]].
  - reflexivity.
  - lia.
  - reflexivity.
  - lia.
  - exists o', ts. split; [exact H1|]. split; [exact H2|exact H3].
Defined.

(** ** Round trip of a two-dimensional buffer *)

Lemma table_ext {A} (n m : nat) (g h : nat -> nat -> A) :
  (forall i j, (i < n)%nat -> (j < m)%nat -> g i j = h i j) ->
  table n m g = table n m h.
Proof.
  intros H. unfold table.
  apply flat_map_ext_in. intros i Hi. apply in_seq in Hi.
  apply map_ext_in. intros j Hj. apply in_seq in Hj.
  apply H; lia.
Qed.

Lemma channel_table (n m j : nat) (H : nat -> nat -> C) :
  (j < m)%nat ->
  channel (table n m H) n m j = map (fun i => H i j) (seq 0 n).
Proof.
  intros Hj. unfold channel. apply map_ext_in. intros i Hi.
  apply in_seq in Hi.
  apply nth_error_nth. apply nth_error_table; lia.
Qed.

Lemma nth_channel (l : list C) (n m i j : nat) :
  (i < n)%nat ->
  nth i (channel l n m j) (RtoC 0) = nth (i * m + j) l (RtoC 0).
Proof.
  intros Hi. unfold channel.
  apply (@nth_map_seq _ (fun i => nth (i * m + j) l (RtoC 0)) (RtoC 0) n i Hi).
Qed.

Lemma channel_real (xs : list R) (n m j : nat) :
  map (fun x => RtoC (Re x)) (channel (map RtoC xs) n m j) =
  channel (map RtoC xs) n m j.
Proof.
  unfold channel. rewrite map_map. apply map_ext. intros i.
  rewrite (map_nth RtoC xs 0). reflexivity.
Qed.

(** The same algebra for a buffer of [N >= 1] samples and [m] channels, in
    exact arithmetic (float64 rounding and overflow are not modelled):
    assigning the real buffer to [timeSignal] and building a fresh signal
    from the spectrum in the ['freq'] domain gives back the buffer. *)
Theorem time_freq_time_round_trip_2d
        (o : SignalObj) (xs : list R) (n m : nat) (z z' : Z) :
  length xs = (S n * m)%nat ->
  _samplingRate o = PInt z ->
  z <> 0%Z ->
  z' <> 0%Z ->
  exists o1 fs o2,
    timeSignal_set (real_array [S n; m] xs) o = (o1, Ok tt) /\
    freqSignal o1 = Ok fs /\
    shape fs = [S n; m] /\
    SignalObj_init fs (PStr "freq") [PInt z'] [] = Ok o2 /\
    timeSignal o2 = Ok (real_array [S n; m] xs).
Proof.
  intros Hl Hsr Hz Hz'.
  assert (Hl' : length (map RtoC xs) = (S n * m)%nat)
    by (rewrite length_map; exact Hl).
  assert (Hdft : forall r, length r = S n -> length (dft r) = S n)
    by (intros r Hr; rewrite length_dft; exact Hr).
  set (g := fun x : C => RtoC (Re x)).
  assert (Hidft : forall r, length r = S n ->
                            length (map g (idft r)) = S n)
    by (intros r Hr; rewrite length_map, length_idft; exact Hr).
  set (F := fun i j => nth i (dft (channel (map RtoC xs) (S n) m j)) (RtoC 0)).
  exists (after_timeSignal (real_array [S n; m] xs) (S n) z
            (fft_of (real_array [S n; m] xs) (S n) [m]) o).
  exists (mk_ndarray [S n; m] (table (S n) m F)).
  eexists.
  split; [apply (@timeSignal_set_ok o (real_array [S n; m] xs) n [m] z);
          [reflexivity|exact Hsr|exact Hz]|].
  split.
  { unfold freqSignal, attr, after_timeSignal.
    cbn [_freqSignal with_freqSignal]. f_equal.
    apply (@transform_2d dft (S n) m (map RtoC xs) Hdft Hl'). }
  split; [reflexivity|].
  split; [apply (@SignalObj_init_freq_ok _ n [m]);
          [reflexivity|cbn; lia|exact Hz']|].
  unfold timeSignal, attr, after_freqSignal.
  cbn [_timeSignal with_freqVector with_timeVector with_timeLength
       with_fftDegree with_numSamples with_timeSignal].
  f_equal. unfold ifft_of, np_real. cbn [shape data].
  rewrite map_flat_map. fold g.
  rewrite (@transform_2d (fun r => map g (idft r)) (S n) m
             (table (S n) m F) Hidft (length_table _ _ _)).
  unfold real_array. f_equal.
  etransitivity;
    [|symmetry; apply (@data_as_table (S n) m (map RtoC xs) Hl')].
  apply table_ext. intros i j Hi Hj.
  rewrite (channel_table (S n) F Hj). unfold F.
  pose proof (map_nth_seq (RtoC 0) (dft (channel (map RtoC xs) (S n) m j)))
    as E.
  rewrite length_dft in E.
  assert (Hlc : length (channel (map RtoC xs) (S n) m j) = S n)
    by (unfold channel; rewrite length_map, length_seq; reflexivity).
  rewrite Hlc in E. rewrite E.
  rewrite idft_dft
    by (intros E0; rewrite E0 in Hlc; discriminate Hlc).
  unfold g. rewrite channel_real. apply nth_channel. exact Hi.
Qed.

Lemma time_freq_time_round_trip_2d_witness :
  exists o1 fs o2,
    timeSignal_set (real_array [2; 2]%nat [1; 2; 3; 4])
                   (entering_setter 8 "time") = (o1, Ok tt) /\
    freqSignal o1 = Ok fs /\
    SignalObj_init fs (PStr "freq") [PInt 8] [] = Ok o2 /\
    timeSignal o2 = Ok (real_array [2; 2]%nat [1; 2; 3; 4]).
Proof.
  destruct (@time_freq_time_round_trip_2d
              (entering_setter 8 "time") [1; 2; 3; 4] 1%nat 2%nat 8%Z 8%Z)
    as [o1 [fs [o2 [H1 [H2 [_ [H4 H5]]]]]]].
  - reflexivity.
  - reflexivity.
  - lia.
  - lia.
  - exists o1, fs, o2. split; [exact H1|]. split; [exact H2|].
    split; [exact H4|exact H5].
Defined.
